(** * docker-runner: the build-context archive builder and the build invoker

    A shallow embedding of [internal/docker]: [readFile],
    [buildRequestReaderWithAllFiles] and [Client.Build], together with the
    parts of the Go runtime they call (the operating system, [archive/tar],
    [bufio.Scanner] and the Docker client), which are modelled as far as the
    program observes them. *)

From Stdlib Require Import List String Ascii ZArith Lia Bool.
From Stdlib.Strings Require Import Byte.
Import ListNotations.
Open Scope string_scope.
Open Scope list_scope.
Open Scope Z_scope.

Set Implicit Arguments.

(* ================================================================== *)
(** ** Errors *)

(** The package-level sentinels ([errors.New]). *)
Inductive Sentinel :=
| ClientBuildErr
| ImageBuildErr
| BuildDockerAPIErr
| DockerfileNotFoundErr
| ContextDirReadErr
| ContextFilesReadErr.

Definition Sentinel_eqb (a b : Sentinel) : bool :=
  match a, b with
  | ClientBuildErr, ClientBuildErr
  | ImageBuildErr, ImageBuildErr
  | BuildDockerAPIErr, BuildDockerAPIErr
  | DockerfileNotFoundErr, DockerfileNotFoundErr
  | ContextDirReadErr, ContextDirReadErr
  | ContextFilesReadErr, ContextFilesReadErr => true
  | _, _ => false
  end.

Definition sentinel_text (s : Sentinel) : string :=
  match s with
  | ClientBuildErr => "failed to create Docker client"
  | ImageBuildErr => "failed to build image"
  | BuildDockerAPIErr => "docker api build error"
  | DockerfileNotFoundErr => "dockerfile not found"
  | ContextDirReadErr => "failed to read folder content to build request"
  | ContextFilesReadErr => "failed to add file to build request"
  end.

(** Error numbers of the operating system that the program can meet. *)
Inductive Errno := ENOENT | ENOTDIR | EACCES | EIO.

Definition errno_text (e : Errno) : string :=
  match e with
  | ENOENT => "no such file or directory"
  | ENOTDIR => "not a directory"
  | EACCES => "permission denied"
  | EIO => "input/output error"
  end.

(** A Go [error] value.  [Errorf s ctx cause] is the value of
    [fmt.Errorf("%w<ctx>%w", s, cause)]: the text [ctx] stands between the two
    wrapped errors, with its [%s] already substituted. *)
Inductive error :=
| Sent (s : Sentinel)
| PathError (op path : string) (e : Errno)
| LibError (msg : string)
| Errorf (s : Sentinel) (ctx : string) (cause : error).

(** [err.Error()] *)
Fixpoint Error (e : error) : string :=
  match e with
  | Sent s => sentinel_text s
  | PathError op path e => (op ++ " " ++ path ++ ": " ++ errno_text e)%string
  | LibError msg => msg
  | Errorf s ctx cause => (sentinel_text s ++ ctx ++ Error cause)%string
  end.

(** [errors.Is(e, target)] for a sentinel target. *)
Fixpoint errors_Is (e : error) (target : Sentinel) : bool :=
  match e with
  | Sent s => Sentinel_eqb s target
  | PathError _ _ _ => false
  | LibError _ => false
  | Errorf s _ cause => Sentinel_eqb s target || errors_Is cause target
  end.


(** The result of a Go call that returns [(T, error)]. *)
Inductive Result (A : Type) :=
| Ok (a : A)
| Err (e : error).
Arguments Ok {A} a.
Arguments Err {A} e.

(** How a function ends: by returning a value, by returning an error, or by
    a run-time panic. *)
Inductive Outcome (A : Type) :=
| Returns (a : A)
| Fails (e : error)
| Panics (msg : string).
Arguments Returns {A} a.
Arguments Fails {A} e.
Arguments Panics {A} msg.

Definition nilDeref : string :=
  "runtime error: invalid memory address or nil pointer dereference".

(* ================================================================== *)
(** ** The operating system, as the program observes it *)

Definition bytes := list byte.

(** [fs.FileInfo]: only [Mode()] is used; an [fs.FileMode] is a [uint32]. *)
Record FileInfo := { Mode : Z }.

Definition ModePerm : Z := 511.          (* 0o777 *)
Definition ModeDir : Z := 2 ^ 31.
Definition ModeSymlink : Z := 2 ^ 27.
Definition ModeSetuid : Z := 2 ^ 23.
Definition ModeSetgid : Z := 2 ^ 22.
Definition ModeSticky : Z := 2 ^ 20.
Definition ModeDevice : Z := 2 ^ 26.
Definition ModeNamedPipe : Z := 2 ^ 25.
Definition ModeSocket : Z := 2 ^ 24.
Definition ModeCharDevice : Z := 2 ^ 21.
Definition ModeIrregular : Z := 2 ^ 19.
Definition ModeType : Z :=
  Z.lor ModeDir (Z.lor ModeSymlink (Z.lor ModeNamedPipe (Z.lor ModeSocket
    (Z.lor ModeDevice (Z.lor ModeCharDevice ModeIrregular))))).

(** [m.Perm()] and [m.IsRegular()] *)
Definition Perm (m : Z) : Z := Z.land m ModePerm.
Definition IsRegular (m : Z) : bool := Z.land m ModeType =? 0.

(** The mode [tar.FileInfoHeader] records for a file mode: the permission
    bits, with the setuid, setgid and sticky flags as the bits 0o4000,
    0o2000 and 0o1000 of a Unix mode. *)
Definition tarMode (m : Z) : Z :=
  Z.lor (Perm m)
    (Z.lor (if Z.land m ModeSetuid =? 0 then 0 else 2048)
       (Z.lor (if Z.land m ModeSetgid =? 0 then 0 else 1024)
              (if Z.land m ModeSticky =? 0 then 0 else 512))).

(** [fs.DirEntry].  [Info] is the pair [d.Info()] returns: [Err e] stands
    for [(nil, e)]. *)
Record DirEntry := {
  Name : string;
  IsDir : bool;
  Info : Result FileInfo
}.

(** An opened [*os.File]: what [io.ReadAll] gives on it. *)
Record File := { ReadAll : Result bytes }.

(** The answers of the operating system, by path. *)
Record World := {
  Getwd : Result string;
  ReadDir : string -> Result (list DirEntry);
  Open : string -> Result File
}.

(** The calls the program makes, in order. *)
Inductive Event :=
| EvGetwd
| EvReadDir (path : string)
| EvOpen (path : string)
| EvClose (path : string)
| EvInfo (name : string)
| EvSlog (file_name : string) (file_content : bytes).

Definition IsAbs (p : string) : bool :=
  match p with
  | String c _ => Ascii.eqb c "/"
  | EmptyString => false
  end.

(** The elements of a path: what stands between its separators. *)
Fixpoint elements (path : string) : list string :=
  match path with
  | EmptyString => [EmptyString]
  | String c rest =>
      if Ascii.eqb c "/" then EmptyString :: elements rest
      else
        match elements rest with
        | e :: es => String c e :: es
        | [] => [String c EmptyString]
        end
  end.

(** The elements [filepath.Clean] keeps; [out] holds those kept so far,
    the last one first.  Empty elements and [.] are dropped; [..] removes
    the element before it, is dropped at the root, and is kept where a
    relative path has nothing left to remove. *)
Fixpoint cleanElements (rooted : bool) (els : list string) (out : list string)
  : list string :=
  match els with
  | [] => rev out
  | e :: rest =>
      if String.eqb e "" || String.eqb e "." then cleanElements rooted rest out
      else if String.eqb e ".." then
        match out with
        | top :: out' =>
            if String.eqb top ".." then cleanElements rooted rest (e :: out)
            else cleanElements rooted rest out'
        | [] =>
            if rooted then cleanElements rooted rest []
            else cleanElements rooted rest [e]
        end
      else cleanElements rooted rest (e :: out)
  end.

(** [filepath.Clean] *)
Definition Clean (path : string) : string :=
  if String.eqb path "" then "."
  else
    let out := String.concat "/" (cleanElements (IsAbs path) (elements path) []) in
    if IsAbs path then ("/" ++ out)%string
    else if String.eqb out "" then "." else out.

(** [filepath.Join] of two elements: empty elements are ignored and the
    result is cleaned; the join of empty elements is empty. *)
Definition Join (a b : string) : string :=
  if negb (String.eqb a "") then Clean (a ++ "/" ++ b)%string
  else if negb (String.eqb b "") then Clean b
  else "".

(* ================================================================== *)
(** ** archive/tar *)

(** The fields of [tar.Header] the program sets; all others are zero. *)
Record Header := { hName : string; hSize : Z; hMode : Z }.

(** One unit of the byte stream: a data byte, or the encoded header block
    of a header (its encoding is not modelled). *)
Inductive Cell :=
| HdrBlock (h : Header)
| B (b : byte).

Definition Stream := list Cell.

Definition blockSize : Z := 512.

(** [blockPadding]: the bytes needed to reach the next block boundary. *)
Definition blockPadding (offset : Z) : Z := Z.land (- offset) (blockSize - 1).

Definition zeros (n : Z) : Stream := repeat (B x00) (Z.to_nat n).
Definition raw (bs : bytes) : Stream := map B bs.

(** The operations of [*tar.Writer] over a [bytes.Buffer], as an interface:
    each returns the error (if any) and the writer afterwards. *)
Class TarWriter (W : Type) := {
  tw_New : W;
  tw_WriteHeader : Header -> W -> option error * W;
  tw_Write : bytes -> W -> option error * W;
  tw_Flush : W -> option error * W;
  tw_Close : W -> option error * W;
  tw_Bytes : W -> Stream
}.

(* ================================================================== *)
(** ** A monad for code that makes calls, may return an error and may panic *)

Definition M (S A : Type) : Type := S -> Outcome A * S.

Definition ret {S A} (a : A) : M S A := fun s => (Returns a, s).
Definition fail {S A} (e : error) : M S A := fun s => (Fails e, s).
Definition panic {S A} (msg : string) : M S A := fun s => (Panics msg, s).

Definition bind {S A C} (m : M S A) (f : A -> M S C) : M S C :=
  fun s =>
    match m s with
    | (Returns a, s') => f a s'
    | (Fails e, s') => (Fails e, s')
    | (Panics p, s') => (Panics p, s')
    end.

(** [defer]: the deferred call runs when the body ends, however it ends. *)
Definition defer {S A} (body : M S A) (cleanup : S -> S) : M S A :=
  fun s => let (o, s') := body s in (o, cleanup s').

Notation "x <- m ;; k" := (bind m (fun x => k))
  (at level 61, m at next level, right associativity).
Notation "m ;;; k" := (bind m (fun _ => k))
  (at level 61, right associativity).

(* ================================================================== *)
(** ** The program *)

Section Program.

Context {W : Type} {TW : TarWriter W}.
Variable w : World.

(** What a running function can change: the log of calls made, and the tar
    writer [tw] (with its buffer [buf]). *)
Record St := { trace : list Event; tw : W }.

Definition emit (e : Event) : M St unit :=
  fun s => (Returns tt, {| trace := trace s ++ [e]; tw := tw s |}).

(** A call returning [(T, error)], logged as [e]. *)
Definition call {A} (e : Event) (r : Result A) : M St (Result A) :=
  emit e ;;; ret r.

(** A method of [tw], returning its [error]. *)
Definition onWriter (op : W -> option error * W) : M St (option error) :=
  fun s => let (r, t) := op (tw s) in (Returns r, {| trace := trace s; tw := t |}).

(** [filepath.Abs] *)
Definition Abs (path : string) : M St (Result string) :=
  if IsAbs path then ret (Ok (Clean path))
  else
    wd <- call EvGetwd (Getwd w) ;;
    match wd with
    | Err e => ret (Err e)
    | Ok wd => ret (Ok (Join wd path))
    end.

Definition readFile (srcFolder fileName : string) : M St bytes :=
  let path := Join srcFolder fileName in
  f <- call (EvOpen path) (Open w path) ;;
  match f with
  | Err err =>
      fail (Errorf ContextFilesReadErr (" (opening " ++ fileName ++ "):")%string err)
  | Ok f =>
      defer
        (match ReadAll f with
         | Err err =>
             fail (Errorf ContextFilesReadErr (" (reading " ++ fileName ++ "):")%string err)
         | Ok b =>
             emit (EvSlog fileName b) ;;;
             ret b
         end)
        (fun s => {| trace := trace s ++ [EvClose path]; tw := tw s |})
  end.

(** The body of the [for _, d := range dir] loop. *)
Definition addEntry (src : string) (d : DirEntry) : M St unit :=
  if negb (IsDir d) then
    b <- (fun s =>
            match readFile src (Name d) s with
            | (Fails err, s') =>
                (Fails (Errorf ContextFilesReadErr
                          (" (opening " ++ Name d ++ "):")%string err), s')
            | r => r
            end) ;;
    (* [i, _ := d.Info()]: the error is dropped, and [i.Mode()] below
       dereferences [i], which is nil when the lookup failed *)
    i <- call (EvInfo (Name d)) (Info d) ;;
    match i with
    | Err _ => panic nilDeref
    | Ok i =>
        let tarHeader :=
          {| hName := Name d; hSize := Z.of_nat (List.length b); hMode := Mode i |} in
        err <- onWriter (tw_WriteHeader tarHeader) ;;
        match err with
        | Some err =>
            fail (Errorf ContextFilesReadErr
                    (" (writing header " ++ Name d ++ "):")%string err)
        | None =>
            err <- onWriter (tw_Write b) ;;
            match err with
            | Some err =>
                fail (Errorf ContextFilesReadErr
                        (" (writing content " ++ Name d ++ "):")%string err)
            | None => ret tt
            end
        end
    end
  else ret tt.

Fixpoint rangeDir (src : string) (dir : list DirEntry) : M St unit :=
  match dir with
  | [] => ret tt
  | d :: rest => addEntry src d ;;; rangeDir src rest
  end.

(** A finished run: how the function ended, the calls it made, and the tar
    writer as the deferred [tw.Close()] left it ([None] when the function
    ended before creating it). *)
Record Run := { result : Outcome Stream; events : list Event; writer : option W }.

(** The value returned on success, [bytes.NewReader(buf.Bytes())], is
    the content of the buffer at the [return] statement; the deferred
    [tw.Close()] runs after it has been computed and changes the buffer
    only. *)
Definition buildRequestReaderWithAllFiles (src : string) : Run :=
  match Abs src {| trace := []; tw := tw_New |} with
  | (Returns (Err err), s) =>
      {| result := Fails (Errorf DockerfileNotFoundErr ": " err);
         events := trace s; writer := None |}
  | (Returns (Ok srcAbs), s) =>
      let body : M St Stream :=
        dir <- call (EvReadDir srcAbs) (ReadDir w srcAbs) ;;
        match dir with
        | Err err => fail (Errorf ContextDirReadErr ": " err)
        | Ok dir =>
            rangeDir src dir ;;;
            err <- onWriter tw_Flush ;;
            match err with
            | Some err =>
                fail (Errorf ContextFilesReadErr " (flushing header):" err)
            | None => fun s => (Returns (tw_Bytes (tw s)), s)
            end
        end in
      let (o, s') :=
        defer body (fun s => {| trace := trace s; tw := snd (tw_Close (tw s)) |})
              {| trace := trace s; tw := tw_New |} in
      {| result := o; events := trace s'; writer := Some (tw s') |}
  | (Fails e, s) => {| result := Fails e; events := trace s; writer := None |}
  | (Panics p, s) => {| result := Panics p; events := trace s; writer := None |}
  end.

End Program.

(* ================================================================== *)
(** ** [tar.Writer] over a [bytes.Buffer] *)

Module Tar.

Definition ErrWriteTooLong : error := LibError "archive/tar: write too long".
Definition ErrWriteAfterClose : error := LibError "archive/tar: write after close".
Definition ErrHeader : error := LibError "archive/tar: invalid tar header".
Definition ErrMissedWriting : error := LibError "archive/tar: missed writing bytes".
Definition ErrCannotEncode : error := LibError "archive/tar: cannot encode header".
Definition ErrUnexpectedEOF : error := LibError "unexpected EOF".

Definition isWriteAfterClose (e : error) : bool :=
  match e with
  | LibError msg => String.eqb msg "archive/tar: write after close"
  | _ => false
  end.

(** [buf] is the [bytes.Buffer] under the writer, [pad] the padding owed
    after the current entry, [nb] the bytes of the current entry not yet
    written, [err] the sticky error. *)
Record Writer := { buf : Stream; pad : Z; nb : Z; err : option error }.

Definition NewWriter : Writer := {| buf := []; pad := 0; nb := 0; err := None |}.

Definition Flush (t : Writer) : option error * Writer :=
  match err t with
  | Some e => (Some e, t)
  | None =>
      if 0 <? nb t then (Some ErrMissedWriting, t)
      else (None, {| buf := buf t ++ zeros (pad t); pad := 0; nb := nb t; err := None |})
  end.

Section Encoding.

(** Whether some tar format can encode the header
    ([Header.allowedFormats]); the formats are not modelled. *)
Variable accept : Header -> bool.

Definition WriteHeader (hdr : Header) (t : Writer) : option error * Writer :=
  match Flush t with
  | (Some e, t') => (Some e, t')
  | (None, t') =>
      if accept hdr then
        (None, {| buf := buf t' ++ [HdrBlock hdr];
                  pad := blockPadding (hSize hdr);
                  nb := hSize hdr;
                  err := None |})
      else (Some ErrCannotEncode, t')
  end.

Definition Write (b : bytes) (t : Writer) : option error * Writer :=
  match err t with
  | Some e => (Some e, t)
  | None =>
      let overwrite := nb t <? Z.of_nat (List.length b) in
      let b' := if overwrite then firstn (Z.to_nat (nb t)) b else b in
      let t' := {| buf := buf t ++ raw b';
                   pad := pad t;
                   nb := nb t - Z.of_nat (List.length b');
                   err := None |} in
      if overwrite then (Some ErrWriteTooLong, t') else (None, t')
  end.

(** The trailer: two zero blocks. *)
Definition trailer : Stream := zeros blockSize ++ zeros blockSize.

Definition Close (t : Writer) : option error * Writer :=
  match err t with
  | Some e => if isWriteAfterClose e then (None, t) else (Some e, t)
  | None =>
      match Flush t with
      | (None, t') =>
          (None, {| buf := buf t' ++ trailer; pad := pad t'; nb := nb t';
                    err := Some ErrWriteAfterClose |})
      | (Some e, t') =>
          (Some e, {| buf := buf t'; pad := pad t'; nb := nb t';
                      err := Some ErrWriteAfterClose |})
      end
  end.

#[export] Instance goTar : TarWriter Writer := {|
  tw_New := NewWriter;
  tw_WriteHeader := WriteHeader;
  tw_Write := Write;
  tw_Flush := Flush;
  tw_Close := Close;
  tw_Bytes := buf
|}.

End Encoding.

(** *** Reading an archive back ([tar.Reader]) *)

(** An entry of an archive: its header and its content. *)
Definition Entry : Type := Header * bytes.

Inductive RState :=
| AtHeader                                     (* at a block boundary *)
| InZero (seen : nat)                          (* inside zero blocks *)
| InData (h : Header) (acc : bytes) (left : nat)
| InPad (left : nat).

Definition afterData (h : Header) : RState :=
  match Z.to_nat (blockPadding (hSize h)) with
  | O => AtHeader
  | p => InPad p
  end.

Definition consEntry (e : Entry) (r : Result (list Entry)) : Result (list Entry) :=
  match r with
  | Ok es => Ok (e :: es)
  | Err x => Err x
  end.

Definition isZero (b : byte) : bool := Byte.eqb b x00.

(** The entries [Reader.Next] and [Reader.Read] give until [io.EOF].  The
    end of the input at a block boundary ends the archive, as two zero
    blocks do. *)
Fixpoint readCells (st : RState) (s : Stream) : Result (list Entry) :=
  match s with
  | [] =>
      match st with
      | AtHeader => Ok []
      | InZero seen => if Nat.eqb seen 512 then Ok [] else Err ErrUnexpectedEOF
      | _ => Err ErrUnexpectedEOF
      end
  | HdrBlock h :: rest =>
      match st with
      | AtHeader =>
          match Z.to_nat (hSize h) with
          | O => consEntry (h, []) (readCells AtHeader rest)
          | n => readCells (InData h [] n) rest
          end
      | _ => Err ErrHeader
      end
  | B b :: rest =>
      match st with
      | AtHeader => if isZero b then readCells (InZero 1) rest else Err ErrHeader
      | InZero seen =>
          if isZero b then
            if Nat.eqb (S seen) 1024 then Ok [] else readCells (InZero (S seen)) rest
          else Err ErrHeader
      | InData h acc (S O) =>
          consEntry (h, rev (b :: acc)) (readCells (afterData h) rest)
      | InData h acc (S k) => readCells (InData h (b :: acc) k) rest
      | InData h acc O => Err ErrHeader
      | InPad (S O) => readCells AtHeader rest
      | InPad (S k) => readCells (InPad k) rest
      | InPad O => Err ErrHeader
      end
  end.

Definition readArchive (s : Stream) : Result (list Entry) := readCells AtHeader s.

(** The stream ends with the end-of-archive marker. *)
Definition terminated (s : Stream) : Prop := exists body, s = body ++ trailer.

End Tar.

(* ================================================================== *)
(** ** [bufio.Scanner] with the default split function and buffer *)

Module Bufio.

Definition MaxScanTokenSize : Z := 64 * 1024.
Definition ErrTooLong : error := LibError "bufio.Scanner: token too long".

Definition isNewline (b : byte) : bool := Byte.eqb b x0a.
Definition isCR (b : byte) : bool := Byte.eqb b x0d.

(** [dropCR], on a line held in reverse. *)
Definition dropCR (rev_line : bytes) : bytes :=
  match rev_line with
  | b :: rest => if isCR b then rev' rest else rev' rev_line
  | [] => []
  end.

(** The tokens [Scan] gives on the bytes that arrive, and whether scanning
    stopped on a line that fills the whole buffer.  [cur] is the pending
    line (in reverse) and [n] its length. *)
Fixpoint scanLines (data : bytes) (cur : bytes) (n : Z) : list bytes * option error :=
  match data with
  | [] => (if n =? 0 then [] else [dropCR cur], None)
  | b :: rest =>
      if isNewline b then
        let (tokens, e) := scanLines rest [] 0 in (dropCR cur :: tokens, e)
      else if MaxScanTokenSize <=? n + 1 then ([], Some ErrTooLong)
      else scanLines rest (b :: cur) (n + 1)
  end.

End Bufio.

(* ================================================================== *)
(** ** The Docker client and [Client.Build] *)

(** [types.ImageBuildOptions]: only [Tags] is set. *)
Record ImageBuildOptions := { Tags : list string }.

(** [response.Body]: the bytes that arrive, and how the stream ends
    ([None] for [io.EOF], [Some e] for a failed read). *)
Record Body := { arriving : bytes; ending : option error }.

(** [*client.Client]: what [ImageBuild] answers. *)
Record Client := {
  ImageBuild : Stream -> ImageBuildOptions -> Result Body
}.

(** What [client.NewClientWithOpts] gives: the client of the Docker SDK,
    with the API version it reports. *)
Record ApiClient := { ClientVersion : string; handle : Client }.

(** [NewClient]: its result and the lines it prints. *)
Definition NewClient (dial : Result ApiClient) : Result Client * list string :=
  match dial with
  | Err err => (Err (Errorf ClientBuildErr ": " err), [])
  | Ok apiClient =>
      (Ok (handle apiClient),
       [("Client API version: " ++ ClientVersion apiClient)%string])
  end.

(** [service.Profiler] and [service.NewProfiler] *)
Record Profiler := { d : Client }.

Definition NewProfiler (dial : Result ApiClient) : Result Profiler * list string :=
  match NewClient dial with
  | (Err err, out) => (Err err, out)
  | (Ok client, out) => (Ok {| d := client |}, out)
  end.

(** A finished [Build]: how it ended, the lines printed on standard output,
    the requests made to the build API, whether the body was closed, and the
    run of the archive builder ([None] when it was not called). *)
Record BuildRun := {
  ended : Outcome unit;
  stdout : list bytes;
  requests : list (Stream * ImageBuildOptions);
  bodyClosed : bool;
  archive : option (Run (W := Tar.Writer))
}.

Section Invoker.

Variable accept : Header -> bool.
Variable w : World.

Definition Build (c : Client) (src : string) : BuildRun :=
  let r := buildRequestReaderWithAllFiles (TW := Tar.goTar accept) w src in
  let stop o :=
    {| ended := o; stdout := []; requests := []; bodyClosed := false; archive := Some r |} in
  match result r with
  | Fails err => stop (Fails (Errorf ImageBuildErr ": " err))
  | Panics p => stop (Panics p)
  | Returns dockerFileReader =>
      let options := {| Tags := ["eldius/test-image"] |} in
      match ImageBuild c dockerFileReader options with
      | Err err =>
          {| ended := Fails (Errorf BuildDockerAPIErr ": " err);
             stdout := []; requests := [(dockerFileReader, options)];
             bodyClosed := false; archive := Some r |}
      | Ok body =>
          let (lines, scanErr) := Bufio.scanLines (arriving body) [] 0 in
          let err := match scanErr with Some e => Some e | None => ending body end in
          {| ended := match err with Some err => Fails err | None => Returns tt end;
             stdout := lines; requests := [(dockerFileReader, options)];
             bodyClosed := true; archive := Some r |}
      end
  end.

(** [buildCmd.Run], under [cobra.ExactArgs(1)]: [None] when the arguments
    are refused and [Run] is not called.  [dial] is what the Docker SDK
    answers to [NewClient]; the lines [NewClient] prints come first on
    standard output; an error of [NewClient] or of [Build] ends in
    [panic(err)]. *)
Definition buildCmd (dial : Result ApiClient) (args : list string) : option BuildRun :=
  match args with
  | [src] =>
      let (c, printed) := NewClient dial in
      let out := map list_byte_of_string printed in
      match c with
      | Err err =>
          Some {| ended := Panics (Error err); stdout := out; requests := [];
                  bodyClosed := false; archive := None |}
      | Ok c =>
          let r := Build c src in
          Some {| ended := match ended r with
                           | Fails err => Panics (Error err)
                           | o => o
                           end;
                  stdout := out ++ stdout r;
                  requests := requests r; bodyClosed := bodyClosed r;
                  archive := archive r |}
      end
  | _ => None
  end.

End Invoker.

(* ================================================================== *)
(** ** Sample worlds *)

Module Sample.

Definition noent (op path : string) : error := PathError op path ENOENT.

(** Nothing exists. *)
Definition emptyWorld : World := {|
  Getwd := Ok "/work";
  ReadDir := fun p => Err (noent "open" p);
  Open := fun p => Err (noent "open" p)
|}.

Definition hello : bytes := [x68; x65; x6c; x6c; x6f].

Definition a_txt : DirEntry :=
  {| Name := "a.txt"; IsDir := false; Info := Ok {| Mode := 420 |} |}.
Definition b_txt : DirEntry :=
  {| Name := "b.txt"; IsDir := false; Info := Ok {| Mode := 384 |} |}.
Definition sub : DirEntry :=
  {| Name := "sub"; IsDir := true; Info := Ok {| Mode := Z.lor ModeDir 493 |} |}.
Definition tool : DirEntry :=
  {| Name := "tool"; IsDir := false; Info := Ok {| Mode := Z.lor ModeSetuid 493 |} |}.

(** [/ctx] holds [a.txt] (5 bytes), [b.txt] (empty) and the directory
    [sub]; [/flat] holds the two files only; [/bin] holds the setuid file
    [tool] (mode 0o4755); [/empty] is an empty directory. *)
Definition ctxWorld : World := {|
  Getwd := Ok "/work";
  ReadDir := fun p =>
    if String.eqb p "/ctx" then Ok [a_txt; b_txt; sub]
    else if String.eqb p "/flat" then Ok [a_txt; b_txt]
    else if String.eqb p "/bin" then Ok [tool]
    else if String.eqb p "/empty" then Ok []
    else Err (noent "open" p);
  Open := fun p =>
    if String.eqb p "/ctx/a.txt" then Ok {| ReadAll := Ok hello |}
    else if String.eqb p "/bin/tool" then Ok {| ReadAll := Ok hello |}
    else if String.eqb p "/ctx/b.txt" then Ok {| ReadAll := Ok [] |}
    else if String.eqb p "/flat/a.txt" then Ok {| ReadAll := Ok hello |}
    else if String.eqb p "/flat/b.txt" then Ok {| ReadAll := Ok [] |}
    else Err (noent "open" p)
|}.

(** A file that cannot be opened, and a file removed after it was read but
    before its info was looked up. *)
Definition locked : DirEntry :=
  {| Name := "locked"; IsDir := false; Info := Ok {| Mode := 0 |} |}.
Definition gone : DirEntry :=
  {| Name := "gone"; IsDir := false;
     Info := Err (PathError "lstat" "/race/gone" ENOENT) |}.

(** [/bad] holds [a.txt] and the unreadable [locked]; [/race] holds
    [a.txt] and [gone]. *)
Definition faultyWorld : World := {|
  Getwd := Err (PathError "getwd" "." ENOENT);
  ReadDir := fun p =>
    if String.eqb p "/bad" then Ok [a_txt; locked]
    else if String.eqb p "/race" then Ok [a_txt; gone]
    else Err (noent "open" p);
  Open := fun p =>
    if String.eqb p "/bad/a.txt" then Ok {| ReadAll := Ok hello |}
    else if String.eqb p "/race/a.txt" then Ok {| ReadAll := Ok hello |}
    else if String.eqb p "/race/gone" then Ok {| ReadAll := Ok [] |}
    else if String.eqb p "/bad/locked" then Err (PathError "open" p EACCES)
    else Err (noent "open" p)
|}.

(** The world of [ctxWorld] later on: [/flat] is unchanged, everything
    else is gone and the working directory has moved. *)
Definition laterWorld : World := {|
  Getwd := Ok "/elsewhere";
  ReadDir := fun p =>
    if String.eqb p "/flat" then Ok [a_txt; b_txt]
    else Err (noent "open" p);
  Open := fun p =>
    if String.eqb p "/flat/a.txt" then Ok {| ReadAll := Ok hello |}
    else if String.eqb p "/flat/b.txt" then Ok {| ReadAll := Ok [] |}
    else Err (noent "open" p)
|}.

Definition acceptAll (h : Header) : bool := true.
Definition acceptNone (h : Header) : bool := false.

(** A tar writer over a sink that takes headers but no content. *)
Definition ErrShortWrite : error := LibError "short write".
Definition fullSink : TarWriter unit := {|
  tw_New := tt;
  tw_WriteHeader := fun _ t => (None, t);
  tw_Write := fun _ t => (Some ErrShortWrite, t);
  tw_Flush := fun t => (None, t);
  tw_Close := fun t => (None, t);
  tw_Bytes := fun _ => []
|}.

(** A build API that answers every request with a two-line log. *)
Definition twoLines : bytes :=
  [x53; x74; x65; x70; x20; x31; x2f; x31; x0a; x6f; x6b; x0a].
Definition stubClient : Client :=
  {| ImageBuild := fun _ _ => Ok {| arriving := twoLines; ending := None |} |}.
Definition stubApi : ApiClient := {| ClientVersion := "1.43"; handle := stubClient |}.

(** A log whose first line fills the scanner's buffer, then a short line. *)
Definition longLog : bytes :=
  repeat x61 (Z.to_nat Bufio.MaxScanTokenSize) ++ [x0a; x6f; x6b; x0a].
Definition longClient : Client :=
  {| ImageBuild := fun _ _ => Ok {| arriving := longLog; ending := None |} |}.

End Sample.

(* ================================================================== *)
(** ** Vocabulary of the statements *)

(** The absolute path [filepath.Abs] gives, when it gives one. *)
Definition resolve (w : World) (src : string) : option string :=
  if IsAbs src then Some (Clean src)
  else match Getwd w with
       | Ok wd => Some (Join wd src)
       | Err _ => None
       end.


Section Vocabulary.

Context {W : Type} {TW : TarWriter W}.
Variable w : World.

(** The state in which the loop over the listing starts. *)
Definition afterListing (src srcAbs : string) : St :=
  {| trace := (if IsAbs src then [] else [EvGetwd]) ++ [EvReadDir srcAbs];
     tw := tw_New |}.

(** The loop has gone through [pre] without an error or a panic, and has
    left the state [s]. *)
Definition processed (src srcAbs : string) (pre : list DirEntry) (s : St) : Prop :=
  rangeDir w src pre (afterListing src srcAbs) = (Returns tt, s).

(** Archiving the entry [d] with the writer [t] meets a failure in the
    given phase, with the given cause. *)
Inductive FileFailure (src : string) (d : DirEntry) (t : W) : string -> error -> Prop :=
| OpenFails e :
    Open w (Join src (Name d)) = Err e ->
    FileFailure src d t "opening"
      (Errorf ContextFilesReadErr (" (opening " ++ Name d ++ "):")%string e)
| ReadFails f e :
    Open w (Join src (Name d)) = Ok f ->
    ReadAll f = Err e ->
    FileFailure src d t "opening"
      (Errorf ContextFilesReadErr (" (reading " ++ Name d ++ "):")%string e)
| HeaderFails f b i e t' :
    Open w (Join src (Name d)) = Ok f ->
    ReadAll f = Ok b ->
    Info d = Ok i ->
    tw_WriteHeader
      {| hName := Name d; hSize := Z.of_nat (List.length b); hMode := Mode i |} t
      = (Some e, t') ->
    FileFailure src d t "writing header" e
| ContentFails f b i e t' t'' :
    Open w (Join src (Name d)) = Ok f ->
    ReadAll f = Ok b ->
    Info d = Ok i ->
    tw_WriteHeader
      {| hName := Name d; hSize := Z.of_nat (List.length b); hMode := Mode i |} t
      = (None, t') ->
    tw_Write b t' = (Some e, t'') ->
    FileFailure src d t "writing content" e.

(** What the file behind a directory entry holds, and its file info. *)
Definition fileOf (src : string) (d : DirEntry) : option (bytes * FileInfo) :=
  match Open w (Join src (Name d)) with
  | Ok f =>
      match ReadAll f, Info d with
      | Ok b, Ok i => Some (b, i)
      | _, _ => None
      end
  | Err _ => None
  end.

End Vocabulary.

(** The bytes of an archive entry: header block, content, padding. *)
Definition encodeEntry (e : Tar.Entry) : Stream :=
  HdrBlock (fst e) :: raw (snd e) ++ zeros (blockPadding (hSize (fst e))).

Definition encode (es : list Tar.Entry) : Stream := flat_map encodeEntry es.

(** The size in the header is the length of the content. *)
Definition sized (e : Tar.Entry) : Prop := hSize (fst e) = Z.of_nat (List.length (snd e)).

(** The directory entry [d] and the archive entry [e] agree: same name, the
    content of the file, its length as size, the mode of its file info. *)
Definition archived (w : World) (src : string) (d : DirEntry) (e : Tar.Entry) : Prop :=
  exists i,
    fileOf w src d = Some (snd e, i) /\
    hName (fst e) = Name d /\
    hSize (fst e) = Z.of_nat (List.length (snd e)) /\
    hMode (fst e) = Mode i.

(** Between two entries: nothing is owed to the current entry and no
    error is pending. *)
Definition idle (t : Tar.Writer) : Prop := Tar.nb t = 0 /\ Tar.err t = None.

(** The buffer once the padding owed is written. *)
Definition flushed (t : Tar.Writer) : Stream := Tar.buf t ++ zeros (Tar.pad t).

(** The header the builder makes for a file. *)
Definition headerOf (d : DirEntry) (b : bytes) (i : FileInfo) : Header :=
  {| hName := Name d; hSize := Z.of_nat (List.length b); hMode := Mode i |}.

(** The files of a listing: its entries that are not directories. *)
Definition filesOf (dir : list DirEntry) : list DirEntry :=
  filter (fun d => negb (IsDir d)) dir.

(** The event is a directory listing. *)
Definition isListing (e : Event) : bool :=
  match e with
  | EvReadDir _ => true
  | _ => false
  end.

(** No event of the list is a directory listing. *)
Definition quiet (evs : list Event) : Prop :=
  forallb (fun e => negb (isListing e)) evs = true.

(** The options [Build] passes to the build API. *)
Definition theOptions : ImageBuildOptions := {| Tags := ["eldius/test-image"] |}.

(** The lines of a log, with no bound on their length: the bytes between
    newlines, without a final carriage return; a last line needs no
    newline. *)
Fixpoint logLines (data : bytes) (cur : bytes) : list bytes :=
  match data with
  | [] => match cur with [] => [] | _ => [Bufio.dropCR cur] end
  | b :: rest =>
      if Bufio.isNewline b then Bufio.dropCR cur :: logLines rest []
      else logLines rest (b :: cur)
  end.

(** No line of the log fills the scanner's buffer: every line, counted
    without its newline but with the carriage return before the newline
    when there is one, is shorter than [MaxScanTokenSize]. *)
Fixpoint shortLines (data : bytes) (n : Z) : bool :=
  match data with
  | [] => true
  | b :: rest =>
      if Bufio.isNewline b then shortLines rest 0
      else (n + 1 <? Bufio.MaxScanTokenSize) && shortLines rest (n + 1)
  end.

(* ================================================================== *)
(** ** The rest of the package *)

Section SingleFile.

Context {W : Type} {TW : TarWriter W}.
Variable w : World.

(** The builder that archives the [Dockerfile] alone (not called by
    [Build]).  The error of [readFile] is overwritten before it is looked
    at, and [b] is nil when the read failed; the content [b] is never
    written; the writer is closed before the buffer is read, and once more
    by the deferred call. *)
Definition buildRequestReaderWithDockerfile (src : string) : Run :=
  match Abs w src {| trace := []; tw := tw_New |} with
  | (Returns (Err err), s) =>
      {| result := Fails (Errorf DockerfileNotFoundErr ": " err);
         events := trace s; writer := None |}
  | (Returns (Ok srcAbs), s) =>
      let (r, s1) := readFile w srcAbs "Dockerfile" s in
      let b := match r with Returns b => b | _ => [] end in
      let body : M St Stream :=
        let tarHeader :=
          {| hName := "Dockerfile"; hSize := Z.of_nat (List.length b); hMode := 0 |} in
        err <- onWriter (tw_WriteHeader tarHeader) ;;
        match err with
        | Some err =>
            fail (Errorf ContextFilesReadErr " (writing Dockerfile):" err)
        | None =>
            err <- onWriter tw_Close ;;
            match err with
            | Some err =>
                fail (Errorf ContextFilesReadErr " (closing header):" err)
            | None => fun s => (Returns (tw_Bytes (tw s)), s)
            end
        end in
      let (o, s') :=
        defer body (fun s => {| trace := trace s; tw := snd (tw_Close (tw s)) |})
              {| trace := trace s1; tw := tw_New |} in
      {| result := o; events := trace s'; writer := Some (tw s') |}
  | (Fails e, s) => {| result := Fails e; events := trace s; writer := None |}
  | (Panics p, s) => {| result := Panics p; events := trace s; writer := None |}
  end.

End SingleFile.

(** The files open after a sequence of calls, the last opened first: an
    open that succeeds adds its path, a close removes the path it names. *)
Fixpoint removeFirst (p : string) (open : list string) : list string :=
  match open with
  | [] => []
  | q :: rest => if String.eqb p q then rest else q :: removeFirst p rest
  end.

Fixpoint openFiles (w : World) (evs : list Event) (open : list string) : list string :=
  match evs with
  | [] => open
  | EvOpen p :: rest =>
      match Open w p with
      | Ok _ => openFiles w rest (p :: open)
      | Err _ => openFiles w rest open
      end
  | EvClose p :: rest => openFiles w rest (removeFirst p open)
  | _ :: rest => openFiles w rest open
  end.

(** The paths a sequence of calls opens, or tries to. *)
Fixpoint opened (evs : list Event) : list string :=
  match evs with
  | [] => []
  | EvOpen p :: rest => p :: opened rest
  | _ :: rest => opened rest
  end.

(** The number of data bytes of a stream (header blocks not counted). *)
Fixpoint dataLength (s : Stream) : Z :=
  match s with
  | [] => 0
  | B _ :: rest => 1 + dataLength rest
  | HdrBlock _ :: rest => dataLength rest
  end.

(** More sample worlds. *)
Module Fixture.

Definition fromLine : bytes := [x46; x52; x4f; x4d; x20; x78; x0a].

(** [/img] holds a [Dockerfile] of 7 bytes, [/bare] an empty one, [/none]
    none at all. *)
Definition dockerWorld : World := {|
  Getwd := Ok "/";
  ReadDir := fun p => Err (Sample.noent "open" p);
  Open := fun p =>
    if String.eqb p "/img/Dockerfile" then Ok {| ReadAll := Ok fromLine |}
    else if String.eqb p "/bare/Dockerfile" then Ok {| ReadAll := Ok [] |}
    else Err (Sample.noent "open" p)
|}.

(** [/mid] holds [a.txt], the unreadable [locked] and [b.txt], in this
    order. *)
Definition midWorld : World := {|
  Getwd := Ok "/";
  ReadDir := fun p =>
    if String.eqb p "/mid" then Ok [Sample.a_txt; Sample.locked; Sample.b_txt]
    else Err (Sample.noent "open" p);
  Open := fun p =>
    if String.eqb p "/mid/a.txt" then Ok {| ReadAll := Ok Sample.hello |}
    else if String.eqb p "/mid/b.txt" then Ok {| ReadAll := Ok [] |}
    else if String.eqb p "/mid/locked" then Err (PathError "open" p EACCES)
    else Err (Sample.noent "open" p)
|}.

Definition refused : error := LibError "Cannot connect to the Docker daemon".

(** A build API that refuses every request. *)
Definition downClient : Client := {| ImageBuild := fun _ _ => Err refused |}.

(** A log of one line, then a line that fills the buffer, then a line. *)
Definition mixedLog : bytes :=
  [x6f; x6b; x0a] ++ repeat x61 (Z.to_nat Bufio.MaxScanTokenSize) ++ [x0a; x6f; x6b; x0a].
Definition brokenPipe : error := LibError "read: connection reset by peer".
Definition mixedClient : Client :=
  {| ImageBuild := fun _ _ => Ok {| arriving := mixedLog; ending := Some brokenPipe |} |}.

End Fixture.

(* ================================================================== *)
(** ** How the builder unfolds *)

Unset Implicit Arguments.

Section Unfolding.

Context {W : Type} {TW : TarWriter W}.
Variable w : World.

Lemma Abs_resolved src srcAbs (s : @St W) :
  resolve w src = Some srcAbs ->
  Abs w src s =
    (Returns (Ok srcAbs),
     {| trace := trace s ++ (if IsAbs src then [] else [EvGetwd]); tw := tw s |}).
Proof.
  unfold resolve, Abs. destruct (IsAbs src).
  - intros [= <-]. unfold ret. rewrite app_nil_r. now destruct s.
  - destruct (Getwd w) as [wd|e]; [|discriminate].
    intros [= <-]. reflexivity.
Qed.

(** The builder, once the path is resolved and the directory listed. *)
Lemma builder_listed src srcAbs dir :
  resolve w src = Some srcAbs ->
  ReadDir w srcAbs = Ok dir ->
  buildRequestReaderWithAllFiles w src =
    match rangeDir w src dir (afterListing src srcAbs) with
    | (Returns _, s) =>
        match tw_Flush (tw s) with
        | (Some err, t) =>
            {| result := Fails (Errorf ContextFilesReadErr " (flushing header):" err);
               events := trace s; writer := Some (snd (tw_Close t)) |}
        | (None, t) =>
            {| result := Returns (tw_Bytes t);
               events := trace s; writer := Some (snd (tw_Close t)) |}
        end
    | (Fails e, s) =>
        {| result := Fails e; events := trace s;
           writer := Some (snd (tw_Close (tw s))) |}
    | (Panics p, s) =>
        {| result := Panics p; events := trace s;
           writer := Some (snd (tw_Close (tw s))) |}
    end.
Proof.
  intros Hres Hdir.
  unfold buildRequestReaderWithAllFiles.
  erewrite Abs_resolved by eassumption.
  cbv beta iota zeta delta
    [defer bind call emit ret fail onWriter afterListing trace tw app].
  rewrite Hdir.
  destruct (rangeDir w src dir _) as [[[]|e|p] s]; try reflexivity.
  destruct s as [tr t0].
  destruct (tw_Flush t0) as [[err|] t]; reflexivity.
Qed.

End Unfolding.

(* ================================================================== *)
(** ** The loop over the directory listing *)

Section Loop.

Context {W : Type} {TW : TarWriter W}.
Variable w : World.

Ltac run_monad :=
  cbv beta iota zeta delta [defer bind call emit ret fail panic onWriter trace tw].

(** The loop over a listing in two parts: the second part runs only when
    the first has ended without an error or a panic. *)
Lemma rangeDir_app src (pre post : list DirEntry) (s : @St W) :
  rangeDir w src (pre ++ post) s =
    match rangeDir w src pre s with
    | (Returns _, s') => rangeDir w src post s'
    | (Fails e, s') => (Fails e, s')
    | (Panics p, s') => (Panics p, s')
    end.
Proof.
  revert s. induction pre as [|d pre IH]; intros s.
  - reflexivity.
  - cbn [app rangeDir]. unfold bind.
    destruct (addEntry w src d s) as [[[]|e|p] s']; auto.
Qed.

Lemma rangeDir_stops_on_error src d post (s s' : @St W) e :
  addEntry w src d s = (Fails e, s') ->
  rangeDir w src (d :: post) s = (Fails e, s').
Proof. intros H. cbn [rangeDir]. unfold bind. now rewrite H. Qed.

Lemma rangeDir_stops_on_panic src d post (s s' : @St W) p :
  addEntry w src d s = (Panics p, s') ->
  rangeDir w src (d :: post) s = (Panics p, s').
Proof. intros H. cbn [rangeDir]. unfold bind. now rewrite H. Qed.

(** A directory is skipped: nothing is read, nothing is written. *)
Lemma addEntry_directory src d (s : @St W) :
  IsDir d = true -> addEntry w src d s = (Returns tt, s).
Proof. intros H. unfold addEntry. now rewrite H. Qed.

(** A failure while archiving a file ends the loop body with the
    classified error. *)
Lemma addEntry_failure src d (s : @St W) phase cause :
  IsDir d = false ->
  FileFailure w src d (tw s) phase cause ->
  exists s',
    addEntry w src d s =
      (Fails (Errorf ContextFilesReadErr
                (" (" ++ phase ++ " " ++ Name d ++ "):")%string cause), s').
Proof.
  intros Hd Hf. unfold addEntry, readFile. rewrite Hd. cbn [negb].
  destruct s as [tr t]. cbn [tw] in Hf.
  destruct Hf as [e Ho | f e Ho Hr | f b i e t' Ho Hr Hi Hh
                  | f b i e t' t'' Ho Hr Hi Hh Hc];
    run_monad; rewrite Ho; try rewrite Hr; try rewrite Hi; run_monad;
    try rewrite Hh; try rewrite Hc; eexists; reflexivity.
Qed.

(** When the file is read but its info lookup fails, the loop body
    panics on the nil info. *)
Lemma addEntry_nil_info src d (s : @St W) f b e :
  IsDir d = false ->
  Open w (Join src (Name d)) = Ok f ->
  ReadAll f = Ok b ->
  Info d = Err e ->
  exists s', addEntry w src d s = (Panics nilDeref, s').
Proof.
  intros Hd Ho Hr Hi. unfold addEntry, readFile. rewrite Hd. cbn [negb].
  run_monad. rewrite Ho, Hr, Hi. eexists; reflexivity.
Qed.

End Loop.

(* ================================================================== *)
(** ** Reading back what the writer wrote *)

Section ReadBack.

Import Tar.

Lemma blockPadding_range n : 0 <= blockPadding n < 512.
Proof.
  unfold blockPadding, blockSize.
  change (512 - 1) with (Z.ones 9).
  rewrite Z.land_ones by lia.
  change (2 ^ 9) with 512. apply Z.mod_pos_bound. lia.
Qed.

Lemma zeros_0 : zeros 0 = [].
Proof. reflexivity. Qed.

Lemma read_data data : forall h acc rest,
  data <> [] ->
  readCells (InData h acc (List.length data)) (raw data ++ rest) =
    consEntry (h, rev acc ++ data) (readCells (afterData h) rest).
Proof.
  induction data as [|b data IH]; intros h acc rest Hne; [contradiction|].
  destruct data as [|b' data].
  - cbn. reflexivity.
  - change (List.length (b :: b' :: data)) with (S (List.length (b' :: data))).
    change (raw (b :: b' :: data) ++ rest) with (B b :: (raw (b' :: data) ++ rest)).
    cbn [readCells List.length].
    change (S (List.length data)) with (List.length (b' :: data)).
    rewrite IH by discriminate.
    cbn [rev]. now rewrite <- app_assoc.
Qed.

Lemma read_pad n : forall rest,
  readCells (InPad (S n)) (repeat (B x00) (S n) ++ rest) = readCells AtHeader rest.
Proof.
  induction n as [|n IH]; intros rest.
  - reflexivity.
  - change (repeat (B x00) (S (S n)) ++ rest)
      with (B x00 :: (repeat (B x00) (S n) ++ rest)).
    cbn [readCells]. apply IH.
Qed.

Lemma read_after_data h rest :
  readCells (afterData h) (zeros (blockPadding (hSize h)) ++ rest) =
    readCells AtHeader rest.
Proof.
  unfold afterData, zeros.
  destruct (Z.to_nat (blockPadding (hSize h))) as [|p].
  - reflexivity.
  - apply read_pad.
Qed.

(** An entry whose header gives the length of its content is read back as
    it was written. *)
Lemma read_entry e rest :
  sized e ->
  readCells AtHeader (encodeEntry e ++ rest) = consEntry e (readCells AtHeader rest).
Proof.
  destruct e as [h data]. unfold sized, encodeEntry. cbn [fst snd]. intros Hs.
  cbn [app readCells]. rewrite <- app_assoc.
  destruct data as [|b data].
  - cbn [List.length] in Hs. rewrite Hs. cbn [Z.of_nat Z.to_nat raw map app].
    change (blockPadding 0) with 0. now rewrite zeros_0.
  - rewrite Hs, Nat2Z.id.
    change (List.length (b :: data)) with (S (List.length data)).
    cbv iota. change (S (List.length data)) with (List.length (b :: data)).
    rewrite read_data by discriminate.
    rewrite <- Hs, read_after_data. reflexivity.
Qed.

Lemma read_encode es : forall rest,
  Forall sized es ->
  readCells AtHeader (encode es ++ rest) =
    fold_right consEntry (readCells AtHeader rest) es.
Proof.
  induction es as [|e es IH]; intros rest Hs.
  - reflexivity.
  - inversion Hs; subst. unfold encode. cbn [flat_map fold_right].
    rewrite <- app_assoc, read_entry by assumption.
    f_equal. now apply IH.
Qed.

Lemma readArchive_encode es :
  Forall sized es -> readArchive (encode es) = Ok es.
Proof.
  intros Hs. unfold readArchive.
  rewrite <- (app_nil_r (encode es)), read_encode by assumption.
  cbn [readCells]. clear Hs. induction es as [|e es IH]; cbn; [|rewrite IH]; reflexivity.
Qed.

End ReadBack.

(* ================================================================== *)
(** ** The loop with the Go tar writer *)

Section GoLoop.

Import Tar.

Variable accept : Header -> bool.
Variable w : World.

Ltac run_monad :=
  cbv beta iota zeta delta [defer bind call emit ret fail panic onWriter trace tw].

(** Writing a header and exactly the announced content appends the entry. *)
Lemma write_entry (t : Writer) h b :
  idle t -> accept h = true -> hSize h = Z.of_nat (List.length b) ->
  exists t1 t2,
    WriteHeader accept h t = (None, t1) /\
    Write b t1 = (None, t2) /\
    idle t2 /\
    flushed t2 = flushed t ++ encodeEntry (h, b).
Proof.
  intros [Hnb Herr] Hacc Hsz.
  unfold WriteHeader, Flush. rewrite Herr, Hnb. cbn [Z.ltb Z.compare].
  rewrite Hacc. eexists; eexists. split; [reflexivity|].
  unfold Write. cbn [err nb buf pad]. rewrite Hsz, Z.ltb_irrefl.
  split; [reflexivity|]. split.
  - split; cbn; [lia | reflexivity].
  - unfold flushed, encodeEntry. cbn [buf pad fst snd].
    rewrite <- !app_assoc. rewrite Hsz. reflexivity.
Qed.

(** The content always fits the size announced for it. *)
Lemma write_content_fits (t : Writer) h b :
  idle t -> hSize h = Z.of_nat (List.length b) ->
  forall t1, WriteHeader accept h t = (None, t1) -> fst (Write b t1) = None.
Proof.
  intros [Hnb Herr] Hsz t1.
  unfold WriteHeader, Flush. rewrite Herr, Hnb. cbn [Z.ltb Z.compare].
  destruct (accept h); [|discriminate]. intros [= <-].
  unfold Write. cbn [err nb]. rewrite Hsz, Z.ltb_irrefl. reflexivity.
Qed.

(** What the loop body has done when it ends without error. *)
Lemma addEntry_returns src d (s s' : @St Writer) :
  idle (tw s) ->
  addEntry (TW := goTar accept) w src d s = (Returns tt, s') ->
  idle (tw s') /\
  if IsDir d then s' = s
  else exists b i,
      fileOf w src d = Some (b, i) /\
      accept (headerOf d b i) = true /\
      flushed (tw s') = flushed (tw s) ++ encodeEntry (headerOf d b i, b).
Proof.
  intros Hidle. unfold addEntry, readFile, fileOf.
  destruct (IsDir d); cbn [negb].
  - intros [= <-]. auto.
  - run_monad.
    destruct (Open w (Join src (Name d))) as [f|e]; [|discriminate].
    destruct (ReadAll f) as [b|e]; [|discriminate].
    destruct (Info d) as [i|e]; [|discriminate].
    destruct s as [tr t]. cbn [tw] in *.
    cbn [tw_WriteHeader tw_Write goTar].
    destruct (accept (headerOf d b i)) eqn:Hacc.
    + destruct (write_entry t (headerOf d b i) b Hidle Hacc eq_refl)
        as (t1 & t2 & H1 & H2 & Hi2 & Hf).
      fold (headerOf d b i). rewrite H1, H2. intros [= <-]. cbn [tw].
      split; [assumption|]. exists b, i. auto.
    + fold (headerOf d b i). unfold WriteHeader, Flush.
      destruct Hidle as [Hnb Herr]. rewrite Herr, Hnb. cbn [Z.ltb Z.compare].
      rewrite Hacc. discriminate.
Qed.

(** A readable, encodable file is archived without error. *)
Lemma addEntry_succeeds src d (s : @St Writer) b i :
  idle (tw s) ->
  IsDir d = false ->
  fileOf w src d = Some (b, i) ->
  accept (headerOf d b i) = true ->
  exists s', addEntry (TW := goTar accept) w src d s = (Returns tt, s').
Proof.
  intros Hidle Hd Hf Hacc. unfold addEntry, readFile. unfold fileOf in Hf.
  rewrite Hd. cbn [negb]. run_monad.
  destruct (Open w (Join src (Name d))) as [f|e]; [|discriminate].
  destruct (ReadAll f) as [b'|e]; [|discriminate].
  destruct (Info d) as [i'|e]; [|discriminate].
  injection Hf as -> ->.
  destruct s as [tr t]. cbn [tw] in *. cbn [tw_WriteHeader tw_Write goTar].
  destruct (write_entry t (headerOf d b i) b Hidle Hacc eq_refl)
    as (t1 & t2 & H1 & H2 & _).
  fold (headerOf d b i). rewrite H1, H2. eexists; reflexivity.
Qed.

Lemma archived_headerOf src d b i :
  fileOf w src d = Some (b, i) -> archived w src d (headerOf d b i, b).
Proof. intros H. exists i. cbn. auto. Qed.

(** What the loop has written when it ends without error: one entry for
    each file of the listing, in the order of the listing. *)
Lemma rangeDir_returns src dir : forall (s s' : @St Writer),
  idle (tw s) ->
  rangeDir (TW := goTar accept) w src dir s = (Returns tt, s') ->
  idle (tw s') /\
  exists es,
    Forall2 (archived w src) (filesOf dir) es /\
    flushed (tw s') = flushed (tw s) ++ encode es.
Proof.
  induction dir as [|d dir IH]; intros s s' Hidle.
  - cbn. intros [= <-]. split; [assumption|]. exists []. split; [constructor|].
    cbn. now rewrite app_nil_r.
  - cbn [rangeDir]. unfold bind.
    destruct (addEntry (TW := goTar accept) w src d s) as [[[]|e|p] s1] eqn:Hadd; try discriminate.
    intros Hrest.
    destruct (addEntry_returns _ _ _ _ Hidle Hadd) as [Hidle1 Hd].
    destruct (IH _ _ Hidle1 Hrest) as [Hidle' (es & Hes & Hfl)].
    split; [assumption|].
    unfold filesOf. cbn [filter]. destruct (IsDir d); cbn [negb].
    + subst s1. exists es. auto.
    + destruct Hd as (b & i & Hfile & _ & Hfl1).
      exists ((headerOf d b i, b) :: es). split.
      * constructor; [now apply archived_headerOf | assumption].
      * rewrite Hfl, Hfl1, <- app_assoc. reflexivity.
Qed.

End GoLoop.

(* ================================================================== *)
(** ** The builder with the Go tar writer *)

Section GoBuilder.

Import Tar.

Variable accept : Header -> bool.
Variable w : World.

Lemma idle_NewWriter src srcAbs :
  idle (tw (afterListing (TW := goTar accept) src srcAbs)).
Proof. split; reflexivity. Qed.

Lemma flushed_NewWriter src srcAbs :
  flushed (tw (afterListing (TW := goTar accept) src srcAbs)) = [].
Proof. reflexivity. Qed.

Lemma archived_sized src ds : forall es,
  Forall2 (archived w src) ds es -> Forall sized es.
Proof.
  induction ds as [|d ds IH]; intros es H; inversion H; subst; constructor.
  - match goal with Ha : archived _ _ _ _ |- _ => destruct Ha as (i & _ & _ & Hs & _) end.
    exact Hs.
  - now apply IH.
Qed.

(** What a successful run returns, and what the buffer holds once the
    deferred [tw.Close()] has run: the stream returned is the buffer as it
    was before the trailer was written. *)
Lemma builder_returns src srcAbs dir s :
  resolve w src = Some srcAbs ->
  ReadDir w srcAbs = Ok dir ->
  result (buildRequestReaderWithAllFiles (TW := goTar accept) w src) = Returns s ->
  exists es t,
    Forall2 (archived w src) (filesOf dir) es /\
    s = encode es /\
    writer (buildRequestReaderWithAllFiles (TW := goTar accept) w src) = Some t /\
    buf t = s ++ trailer.
Proof.
  intros Hres Hdir. rewrite (builder_listed w _ _ _ Hres Hdir).
  destruct (rangeDir w src dir _) as [[[]|e|p] s1] eqn:Hloop;
    cbn [result]; try discriminate.
  destruct (rangeDir_returns accept w _ _ _ _ (idle_NewWriter src srcAbs) Hloop)
    as [[Hnb Herr] (es & Hes & Hfl)].
  rewrite flushed_NewWriter in Hfl. cbn [app] in Hfl.
  cbn [tw_Flush tw_Close tw_Bytes goTar].
  assert (HF : Flush (tw s1) =
               (None, {| buf := flushed (tw s1); pad := 0; nb := nb (tw s1);
                         err := None |})).
  { unfold Flush. rewrite Herr, Hnb. reflexivity. }
  rewrite HF. cbn [result writer buf]. rewrite Hfl.
  intros [= <-].
  exists es. eexists. split; [exact Hes|]. split; [reflexivity|].
  split; [reflexivity|].
  unfold Close, Flush. cbn [err nb buf pad snd]. rewrite Hnb.
  cbn [Z.ltb Z.compare snd buf]. rewrite zeros_0, app_nil_r. reflexivity.
Qed.

(** The loop ends without error when every entry is a directory or a
    readable file with an encodable header. *)
Lemma rangeDir_succeeds src dir : forall (s : @St Writer),
  idle (tw s) ->
  Forall (fun d => IsDir d = false /\
                   exists b i, fileOf w src d = Some (b, i) /\
                               accept (headerOf d b i) = true) dir ->
  exists s', rangeDir (TW := goTar accept) w src dir s = (Returns tt, s').
Proof.
  induction dir as [|d dir IH]; intros s Hidle Hall.
  - eexists; reflexivity.
  - inversion Hall as [|? ? [Hd (b & i & Hf & Hacc)] Hrest]; subst.
    destruct (addEntry_succeeds accept w src d s b i Hidle Hd Hf Hacc) as [s1 H1].
    destruct (addEntry_returns accept w _ _ _ _ Hidle H1) as [Hidle1 _].
    destruct (IH _ Hidle1 Hrest) as [s' H'].
    exists s'. cbn [rangeDir]. unfold bind. now rewrite H1.
Qed.

Lemma filesOf_all_files dir :
  Forall (fun d => IsDir d = false) dir -> filesOf dir = dir.
Proof.
  induction 1 as [|d dir Hd _ IH]; [reflexivity|].
  unfold filesOf in *. cbn [filter]. rewrite Hd. cbn [negb]. now rewrite IH.
Qed.

End GoBuilder.

(* ================================================================== *)
(** ** Paths that do not exist or cannot be resolved *)

Section Paths.

Context {W : Type} {TW : TarWriter W}.
Variable w : World.

(** The builder when the listing of the resolved path fails. *)
Lemma builder_listing_fails src srcAbs e :
  resolve w src = Some srcAbs ->
  ReadDir w srcAbs = Err e ->
  buildRequestReaderWithAllFiles w src =
    {| result := Fails (Errorf ContextDirReadErr ": " e);
       events := (if IsAbs src then [] else [EvGetwd]) ++ [EvReadDir srcAbs];
       writer := Some (snd (tw_Close tw_New)) |}.
Proof.
  intros Hres Hdir. unfold buildRequestReaderWithAllFiles.
  erewrite Abs_resolved by eassumption.
  cbv beta iota zeta delta [defer bind call emit ret fail onWriter trace tw app].
  rewrite Hdir. reflexivity.
Qed.

(** The builder when the path cannot be made absolute: the error is of the
    [DockerfileNotFoundErr] kind and no directory is listed. *)
Lemma builder_unresolved src e :
  IsAbs src = false ->
  Getwd w = Err e ->
  buildRequestReaderWithAllFiles w src =
    {| result := Fails (Errorf DockerfileNotFoundErr ": " e);
       events := [EvGetwd]; writer := None |}.
Proof.
  intros Habs Hwd. unfold buildRequestReaderWithAllFiles, Abs.
  rewrite Habs.
  cbv beta iota zeta delta [bind call emit ret trace tw app].
  rewrite Hwd. reflexivity.
Qed.

End Paths.

Section LoopErrors.

Context {W : Type} {TW : TarWriter W}.
Variable w : World.




End LoopErrors.




(* ================================================================== *)
(** ** What a successful run returns *)

Lemma trailer_length : List.length Tar.trailer = 1024%nat.
Proof. reflexivity. Qed.

(** Claim C2, evaluated.  On the directory [/ctx] ([a.txt] of 5 bytes,
    [b.txt] empty, and a subdirectory) the builder succeeds, and the stream
    it returns does not end with the end-of-archive marker: the two zero
    blocks are written by the deferred [tw.Close()], into the buffer, after
    the returned stream was taken from it. *)
Theorem returned_stream_lacks_trailer :
  exists s t,
    result (buildRequestReaderWithAllFiles
              (TW := Tar.goTar Sample.acceptAll) Sample.ctxWorld "/ctx") = Returns s /\
    ~ Tar.terminated s /\
    writer (buildRequestReaderWithAllFiles
              (TW := Tar.goTar Sample.acceptAll) Sample.ctxWorld "/ctx") = Some t /\
    Tar.buf t = s ++ Tar.trailer /\
    Tar.terminated (Tar.buf t).
Proof.
  pose (s := encode
               [(headerOf Sample.a_txt Sample.hello {| Mode := 420 |}, Sample.hello);
                (headerOf Sample.b_txt [] {| Mode := 384 |}, [])]).
  assert (Hs : result (buildRequestReaderWithAllFiles
                         (TW := Tar.goTar Sample.acceptAll) Sample.ctxWorld "/ctx")
               = Returns s) by (vm_compute; reflexivity).
  destruct (builder_returns Sample.acceptAll Sample.ctxWorld "/ctx" "/ctx"
              [Sample.a_txt; Sample.b_txt; Sample.sub] s eq_refl eq_refl Hs)
    as (es & t & _ & _ & Hw & Hb).
  exists s, t. split; [exact Hs|].
  split; [|split; [exact Hw|split; [exact Hb|]]].
  - intros [body Hbody]. apply (f_equal (@List.length Cell)) in Hbody.
    rewrite length_app, trailer_length in Hbody.
    assert (Hl : List.length s = 514%nat) by (vm_compute; reflexivity).
    rewrite Hl in Hbody. lia.
  - rewrite Hb. eexists. reflexivity.
Qed.

(** The builder on an empty directory: no error, and a stream without any
    byte, in which a tar reader finds no entry. *)
Lemma builder_empty_directory
    (accept : Header -> bool) (w : World) (src srcAbs : string) :
  resolve w src = Some srcAbs ->
  ReadDir w srcAbs = Ok [] ->
  result (buildRequestReaderWithAllFiles (TW := Tar.goTar accept) w src) = Returns [] /\
  Tar.readArchive [] = Ok [].
Proof.
  intros Hres Hdir. rewrite (builder_listed w _ _ _ Hres Hdir).
  split; reflexivity.
Qed.

(** Claim C4, evaluated.  On the empty directory [/empty] the builder
    returns no error and a stream that has no bytes at all: the two zero
    blocks that make up an empty archive reach the buffer only with the
    deferred [tw.Close()], after the returned stream was taken from it. *)
Theorem empty_directory_stream_has_no_bytes :
  result (buildRequestReaderWithAllFiles
            (TW := Tar.goTar Sample.acceptAll) Sample.ctxWorld "/empty") = Returns [] /\
  ~ Tar.terminated [] /\
  exists t,
    writer (buildRequestReaderWithAllFiles
              (TW := Tar.goTar Sample.acceptAll) Sample.ctxWorld "/empty") = Some t /\
    Tar.buf t = Tar.trailer.
Proof.
  destruct (builder_empty_directory Sample.acceptAll Sample.ctxWorld "/empty" "/empty"
              eq_refl eq_refl) as [Hs _].
  split; [exact Hs|]. split.
  - intros [body Hbody]. apply (f_equal (@List.length Cell)) in Hbody.
    rewrite length_app, trailer_length in Hbody. cbn [List.length] in Hbody. lia.
  - destruct (builder_returns Sample.acceptAll Sample.ctxWorld "/empty" "/empty"
                [] [] eq_refl eq_refl Hs) as (es & t & _ & _ & Hw & Hb).
    exists t. split; [exact Hw | exact Hb].
Qed.

(** Two lists related entry by entry: each member of the second has a
    partner in the first. *)
Lemma Forall2_partner {A C : Type} (R : A -> C -> Prop) (l : list A) :
  forall (l' : list C) (y : C),
    Forall2 R l l' -> In y l' -> exists x, In x l /\ R x y.
Proof.
  induction l as [|a l IH]; intros l' y H Hin; inversion H; subst.
  - contradiction.
  - destruct Hin as [<- | Hin].
    + exists a. split; [now left | assumption].
    + destruct (IH _ _ ltac:(eassumption) Hin) as (x & Hx & HR).
      exists x. split; [now right | assumption].
Qed.

(** The mode in the header is the [fs.FileMode] of the file info as it
    is: its permission bits are those of the file, and it is the permission
    bits alone when the file info has no other bit set. *)
Lemma archived_mode (w : World) (src : string) (d : DirEntry) (e : Tar.Entry)
    (i : FileInfo) :
  archived w src d e ->
  Info d = Ok i ->
  hMode (fst e) = Mode i /\
  Perm (hMode (fst e)) = Perm (Mode i) /\
  (Mode i = Perm (Mode i) -> hMode (fst e) = Perm (Mode i)).
Proof.
  intros (i' & Hf & _ & _ & Hm) Hi. unfold fileOf in Hf.
  destruct (Open w (Join src (Name d))) as [f|]; [|discriminate].
  destruct (ReadAll f); [|discriminate]. rewrite Hi in Hf.
  injection Hf as _ <-. rewrite Hm. repeat split. now intros <-.
Qed.

(** Claim C3, evaluated.  The directory [/bin] holds one regular file,
    [tool], with the permission bits 0o755 and the setuid flag (mode
    0o4755 on disk).  The builder archives it under the right name and
    size, but the mode in its header, 8389101, is the number of Go's
    [fs.FileMode], in which the setuid flag is bit 23: it is neither the
    permission bits of the file (0o755 = 493) nor its mode as a tar header
    records one (0o4755 = 2541). *)
Theorem setuid_file_header_mode :
  exists s i,
    ReadDir Sample.ctxWorld "/bin" = Ok [Sample.tool] /\
    IsDir Sample.tool = false /\
    Info Sample.tool = Ok i /\
    IsRegular (Mode i) = true /\
    result (buildRequestReaderWithAllFiles
              (TW := Tar.goTar Sample.acceptAll) Sample.ctxWorld "/bin") = Returns s /\
    Tar.readArchive s
      = Ok [({| hName := "tool"; hSize := 5; hMode := 8389101 |}, Sample.hello)] /\
    Perm (Mode i) = 493 /\
    tarMode (Mode i) = 2541 /\
    8389101 <> Perm (Mode i) /\
    8389101 <> tarMode (Mode i).
Proof.
  eexists. exists {| Mode := Z.lor ModeSetuid 493 |}.
  repeat split; try (vm_compute; reflexivity); vm_compute; discriminate.
Qed.

(* ================================================================== *)
(** ** The calls made by the loop *)

Section LoopCalls.

Context {W : Type} {TW : TarWriter W}.
Variable w : World.

Lemma addEntry_no_listing src d (s s' : @St W) o :
  addEntry w src d s = (o, s') ->
  exists evs, trace s' = trace s ++ evs /\ quiet evs.
Proof.
  unfold addEntry, readFile. destruct (IsDir d); cbn [negb].
  - intros [= <- <-]. exists []. split; [now rewrite app_nil_r | reflexivity].
  - cbv beta iota zeta delta
      [defer bind call emit ret fail panic onWriter trace tw].
    destruct s as [tr t].
    destruct (Open w (Join src (Name d))) as [f|e].
    + destruct (ReadAll f) as [b|e].
      * destruct (Info d) as [i|e].
        -- destruct (tw_WriteHeader _ t) as [[e|] t1].
           ++ intros [= <- <-]. eexists. split;
                [repeat rewrite <- app_assoc; reflexivity | reflexivity].
           ++ destruct (tw_Write b t1) as [[e|] t2]; intros [= <- <-];
                (eexists; split;
                 [repeat rewrite <- app_assoc; reflexivity | reflexivity]).
        -- intros [= <- <-]. eexists. split;
             [repeat rewrite <- app_assoc; reflexivity | reflexivity].
      * intros [= <- <-]. eexists. split;
          [repeat rewrite <- app_assoc; reflexivity | reflexivity].
    + intros [= <- <-]. eexists. split; reflexivity.
Qed.

Lemma rangeDir_no_listing src dir : forall (s s' : @St W) o,
  rangeDir w src dir s = (o, s') ->
  exists evs, trace s' = trace s ++ evs /\ quiet evs.
Proof.
  induction dir as [|d dir IH]; intros s s' o.
  - intros [= <- <-]. exists []. split; [now rewrite app_nil_r | reflexivity].
  - cbn [rangeDir]. unfold bind.
    destruct (addEntry w src d s) as [o1 s1] eqn:Hadd.
    destruct (addEntry_no_listing _ _ _ _ _ Hadd) as (evs1 & Ht1 & Hq1).
    assert (Hrest : forall o2 s2, rangeDir w src dir s1 = (o2, s2) ->
              exists evs, trace s2 = trace s ++ evs /\ quiet evs).
    { intros o2 s2 H2. destruct (IH _ _ _ H2) as (evs2 & Ht2 & Hq2).
      exists (evs1 ++ evs2). split.
      - now rewrite Ht2, Ht1, app_assoc.
      - unfold quiet in *. rewrite forallb_app, Hq1, Hq2. reflexivity. }
    destruct o1 as [[]|e|p].
    + apply Hrest.
    + intros [= <- <-]. now exists evs1.
    + intros [= <- <-]. now exists evs1.
Qed.

(** The only directory the builder lists is the source directory. *)
Lemma builder_lists_source_only src srcAbs dir p :
  resolve w src = Some srcAbs ->
  ReadDir w srcAbs = Ok dir ->
  In (EvReadDir p) (events (buildRequestReaderWithAllFiles w src)) ->
  p = srcAbs.
Proof.
  intros Hres Hdir. rewrite (builder_listed w _ _ _ Hres Hdir).
  destruct (rangeDir w src dir _) as [o s1] eqn:Hloop.
  destruct (rangeDir_no_listing _ _ _ _ _ Hloop) as (evs & Ht & Hq).
  assert (Hin : In (EvReadDir p) (trace s1) -> p = srcAbs).
  { rewrite Ht. unfold afterListing. cbn [trace]. intros Hin.
    apply in_app_or in Hin. destruct Hin as [Hin | Hin].
    - apply in_app_or in Hin. destruct Hin as [Hin | [[= ->] | []]]; [|reflexivity].
      destruct (IsAbs src); [destruct Hin | destruct Hin as [Heq | []]; discriminate].
    - unfold quiet in Hq. rewrite forallb_forall in Hq.
      specialize (Hq _ Hin). discriminate. }
  destruct o as [[]|e|q]; [|exact Hin|exact Hin].
  destruct (tw_Flush (tw s1)) as [[err|] t]; exact Hin.
Qed.

End LoopCalls.

(** Claim C5.  Whenever the builder returns an archive, its entries are
    exactly the entries of the listing that are not directories, one for
    each and in the same order: every archive entry is a first-level entry
    that is not a directory, and the source directory is the only
    directory that was listed. *)
Theorem no_subdirectory_archived
    (accept : Header -> bool) (w : World) (src srcAbs : string)
    (dir : list DirEntry) (s : Stream) :
  resolve w src = Some srcAbs ->
  ReadDir w srcAbs = Ok dir ->
  result (buildRequestReaderWithAllFiles (TW := Tar.goTar accept) w src) = Returns s ->
  exists es,
    Tar.readArchive s = Ok es /\
    Forall2 (archived w src) (filesOf dir) es /\
    (forall e, In e es ->
       exists d, In d dir /\ IsDir d = false /\ hName (fst e) = Name d) /\
    (forall p,
       In (EvReadDir p)
          (events (buildRequestReaderWithAllFiles (TW := Tar.goTar accept) w src)) ->
       p = srcAbs).
Proof.
  intros Hres Hdir Hs.
  destruct (builder_returns accept w src srcAbs dir s Hres Hdir Hs)
    as (es & t & Hes & -> & _ & _).
  exists es. split; [|split; [exact Hes|split]].
  - apply readArchive_encode. eapply archived_sized; eassumption.
  - intros e Hin.
    destruct (Forall2_partner _ _ _ _ Hes Hin) as (d & Hd & (i & _ & Hname & _)).
    unfold filesOf in Hd. apply filter_In in Hd. destruct Hd as [Hd Hnd].
    exists d. split; [assumption|]. split; [|assumption].
    now destruct (IsDir d).
  - intros p. apply (builder_lists_source_only w src srcAbs dir p Hres Hdir).
Qed.

Lemma no_subdirectory_archived_witness :
  exists es,
    Tar.readArchive
      (encode [(headerOf Sample.a_txt Sample.hello {| Mode := 420 |}, Sample.hello);
               (headerOf Sample.b_txt [] {| Mode := 384 |}, [])]) = Ok es /\
    Forall2 (archived Sample.ctxWorld "/ctx")
            (filesOf [Sample.a_txt; Sample.b_txt; Sample.sub]) es /\
    (forall e, In e es ->
       exists d, In d [Sample.a_txt; Sample.b_txt; Sample.sub] /\
                 IsDir d = false /\ hName (fst e) = Name d) /\
    (forall p,
       In (EvReadDir p)
          (events (buildRequestReaderWithAllFiles
                     (TW := Tar.goTar Sample.acceptAll) Sample.ctxWorld "/ctx")) ->
       p = "/ctx").
Proof.
  apply (no_subdirectory_archived Sample.acceptAll Sample.ctxWorld "/ctx" "/ctx"
           [Sample.a_txt; Sample.b_txt; Sample.sub]).
  - reflexivity.
  - reflexivity.
  - vm_compute. reflexivity.
Defined.

(* ================================================================== *)
(** ** Failures inside the loop *)

Section LoopFailures.

Context {W : Type} {TW : TarWriter W}.
Variable w : World.

Lemma builder_loop_fails src srcAbs dir e (s : @St W) :
  resolve w src = Some srcAbs ->
  ReadDir w srcAbs = Ok dir ->
  rangeDir w src dir (afterListing src srcAbs) = (Fails e, s) ->
  result (buildRequestReaderWithAllFiles w src) = Fails e.
Proof.
  intros Hres Hdir Hloop.
  now rewrite (builder_listed w _ _ _ Hres Hdir), Hloop.
Qed.

Lemma builder_loop_panics src srcAbs dir p (s : @St W) :
  resolve w src = Some srcAbs ->
  ReadDir w srcAbs = Ok dir ->
  rangeDir w src dir (afterListing src srcAbs) = (Panics p, s) ->
  result (buildRequestReaderWithAllFiles w src) = Panics p.
Proof.
  intros Hres Hdir Hloop.
  now rewrite (builder_listed w _ _ _ Hres Hdir), Hloop.
Qed.

End LoopFailures.

(** Claim C6.  When the loop has gone through the entries before the file
    [d] and then opening or reading [d], or writing its header or its
    content, fails, the builder returns no archive but an error of the
    [ContextFilesReadErr] kind whose text carries the phase ("opening" for
    a failed open or read, "writing header", "writing content") and the
    name of [d], and which wraps the cause. *)
Theorem file_failure_is_classified
    (W : Type) (TW : TarWriter W) (w : World) (src srcAbs : string)
    (pre : list DirEntry) (d : DirEntry) (post : list DirEntry) (s : @St W)
    (phase : string) (cause : error) :
  resolve w src = Some srcAbs ->
  ReadDir w srcAbs = Ok (pre ++ d :: post) ->
  processed w src srcAbs pre s ->
  IsDir d = false ->
  FileFailure w src d (tw s) phase cause ->
  result (buildRequestReaderWithAllFiles w src)
    = Fails (Errorf ContextFilesReadErr
               (" (" ++ phase ++ " " ++ Name d ++ "):")%string cause) /\
  errors_Is (Errorf ContextFilesReadErr
               (" (" ++ phase ++ " " ++ Name d ++ "):")%string cause)
            ContextFilesReadErr = true.
Proof.
  intros Hres Hdir Hpre Hd Hfail. split; [|reflexivity].
  destruct (addEntry_failure w src d s phase cause Hd Hfail) as [s' Hadd].
  apply (builder_loop_fails w src srcAbs (pre ++ d :: post) _ s' Hres Hdir).
  rewrite rangeDir_app. unfold processed in Hpre. rewrite Hpre.
  now apply rangeDir_stops_on_error.
Qed.

Lemma file_failure_is_classified_witness :
  (result (buildRequestReaderWithAllFiles
             (TW := Tar.goTar Sample.acceptAll) Sample.faultyWorld "/bad")
     = Fails (Errorf ContextFilesReadErr " (opening locked):"
                (Errorf ContextFilesReadErr " (opening locked):"
                   (PathError "open" "/bad/locked" EACCES))) /\
   errors_Is (Errorf ContextFilesReadErr " (opening locked):"
                (Errorf ContextFilesReadErr " (opening locked):"
                   (PathError "open" "/bad/locked" EACCES)))
             ContextFilesReadErr = true) /\
  (result (buildRequestReaderWithAllFiles
             (TW := Tar.goTar Sample.acceptNone) Sample.ctxWorld "/flat")
     = Fails (Errorf ContextFilesReadErr " (writing header a.txt):"
                Tar.ErrCannotEncode) /\
   errors_Is (Errorf ContextFilesReadErr " (writing header a.txt):"
                Tar.ErrCannotEncode)
             ContextFilesReadErr = true) /\
  (result (buildRequestReaderWithAllFiles
             (TW := Sample.fullSink) Sample.ctxWorld "/flat")
     = Fails (Errorf ContextFilesReadErr " (writing content a.txt):"
                Sample.ErrShortWrite) /\
   errors_Is (Errorf ContextFilesReadErr " (writing content a.txt):"
                Sample.ErrShortWrite)
             ContextFilesReadErr = true).
Proof.
  split; [|split].
  - apply (file_failure_is_classified
             Tar.Writer (Tar.goTar Sample.acceptAll) Sample.faultyWorld "/bad" "/bad"
             [Sample.a_txt] Sample.locked []
             (snd (rangeDir (TW := Tar.goTar Sample.acceptAll) Sample.faultyWorld
                     "/bad" [Sample.a_txt]
                     (afterListing (TW := Tar.goTar Sample.acceptAll) "/bad" "/bad")))
             "opening"
             (Errorf ContextFilesReadErr " (opening locked):"
                (PathError "open" "/bad/locked" EACCES))).
    + reflexivity.
    + reflexivity.
    + reflexivity.
    + reflexivity.
    + apply OpenFails. reflexivity.
  - apply (file_failure_is_classified
             Tar.Writer (Tar.goTar Sample.acceptNone) Sample.ctxWorld "/flat" "/flat"
             [] Sample.a_txt [Sample.b_txt]
             (afterListing (TW := Tar.goTar Sample.acceptNone) "/flat" "/flat")
             "writing header" Tar.ErrCannotEncode).
    + reflexivity.
    + reflexivity.
    + reflexivity.
    + reflexivity.
    + eapply HeaderFails; reflexivity.
  - apply (file_failure_is_classified
             unit Sample.fullSink Sample.ctxWorld "/flat" "/flat"
             [] Sample.a_txt [Sample.b_txt]
             (afterListing (TW := Sample.fullSink) "/flat" "/flat")
             "writing content" Sample.ErrShortWrite).
    + reflexivity.
    + reflexivity.
    + reflexivity.
    + reflexivity.
    + eapply ContentFails; reflexivity.
Defined.

(** Claim C10.  For a file of the listing that is read without error but
    whose info lookup fails, the builder discards the lookup error and
    reads the mode through the nil info: it ends in a run-time panic (nil
    dereference), not in a returned error. *)
Theorem nil_info_panics
    (W : Type) (TW : TarWriter W) (w : World) (src srcAbs : string)
    (pre : list DirEntry) (d : DirEntry) (post : list DirEntry) (s : @St W)
    (f : File) (b : bytes) (e : error) :
  resolve w src = Some srcAbs ->
  ReadDir w srcAbs = Ok (pre ++ d :: post) ->
  processed w src srcAbs pre s ->
  IsDir d = false ->
  Open w (Join src (Name d)) = Ok f ->
  ReadAll f = Ok b ->
  Info d = Err e ->
  result (buildRequestReaderWithAllFiles w src) = Panics nilDeref /\
  forall err, result (buildRequestReaderWithAllFiles w src) <> Fails err.
Proof.
  intros Hres Hdir Hpre Hd Ho Hr Hi.
  destruct (addEntry_nil_info w src d s f b e Hd Ho Hr Hi) as [s' Hadd].
  assert (H : result (buildRequestReaderWithAllFiles w src) = Panics nilDeref).
  { apply (builder_loop_panics w src srcAbs (pre ++ d :: post) _ s' Hres Hdir).
    rewrite rangeDir_app. unfold processed in Hpre. rewrite Hpre.
    now apply rangeDir_stops_on_panic. }
  split; [exact H|]. intros err. rewrite H. discriminate.
Qed.

Lemma nil_info_panics_witness :
  result (buildRequestReaderWithAllFiles
            (TW := Tar.goTar Sample.acceptAll) Sample.faultyWorld "/race")
    = Panics nilDeref /\
  forall err,
    result (buildRequestReaderWithAllFiles
              (TW := Tar.goTar Sample.acceptAll) Sample.faultyWorld "/race")
      <> Fails err.
Proof.
  apply (nil_info_panics
           Tar.Writer (Tar.goTar Sample.acceptAll) Sample.faultyWorld "/race" "/race"
           [Sample.a_txt] Sample.gone []
           (snd (rangeDir (TW := Tar.goTar Sample.acceptAll) Sample.faultyWorld
                   "/race" [Sample.a_txt]
                   (afterListing (TW := Tar.goTar Sample.acceptAll) "/race" "/race")))
           {| ReadAll := Ok [] |} []
           (PathError "lstat" "/race/gone" ENOENT)); reflexivity.
Defined.

(* ================================================================== *)
(** ** Two runs on an unchanged directory *)

Section Unchanged.

Context {W : Type} {TW : TarWriter W}.
Variables w1 w2 : World.

Lemma addEntry_same_file src d (s : @St W) :
  Open w1 (Join src (Name d)) = Open w2 (Join src (Name d)) ->
  addEntry w1 src d s = addEntry w2 src d s.
Proof. intros H. unfold addEntry, readFile, bind, call. now rewrite H. Qed.

Lemma rangeDir_same_files src dir : forall (s : @St W),
  (forall d, In d dir -> Open w1 (Join src (Name d)) = Open w2 (Join src (Name d))) ->
  rangeDir w1 src dir s = rangeDir w2 src dir s.
Proof.
  induction dir as [|d dir IH]; intros s H; [reflexivity|].
  cbn [rangeDir]. unfold bind.
  rewrite (addEntry_same_file src d s) by (apply H; now left).
  destruct (addEntry w2 src d s) as [[[]|e|p] s1]; try reflexivity.
  apply IH. intros d' Hd'. apply H. now right.
Qed.

(** The run of the builder depends only on the resolved path, on the
    listing of the directory and on the files it lists. *)
Lemma builder_same_directory src srcAbs dir :
  resolve w1 src = Some srcAbs ->
  resolve w2 src = Some srcAbs ->
  ReadDir w1 srcAbs = Ok dir ->
  ReadDir w2 srcAbs = Ok dir ->
  (forall d, In d dir -> Open w1 (Join src (Name d)) = Open w2 (Join src (Name d))) ->
  buildRequestReaderWithAllFiles w1 src = buildRequestReaderWithAllFiles w2 src.
Proof.
  intros Hr1 Hr2 Hd1 Hd2 Hfiles.
  rewrite (builder_listed w1 _ _ _ Hr1 Hd1), (builder_listed w2 _ _ _ Hr2 Hd2).
  now rewrite (rangeDir_same_files src dir _ Hfiles).
Qed.

End Unchanged.

(** Claim C8.  Two runs of the builder on the same directory, unchanged
    between them (same listing, same files), end the same way, and when
    they return archives these hold the same entries: same names, sizes,
    modes and contents. *)
Theorem unchanged_directory_same_entries
    (accept : Header -> bool) (w1 w2 : World) (src srcAbs : string)
    (dir : list DirEntry) :
  resolve w1 src = Some srcAbs ->
  resolve w2 src = Some srcAbs ->
  ReadDir w1 srcAbs = Ok dir ->
  ReadDir w2 srcAbs = Ok dir ->
  (forall d, In d dir -> Open w1 (Join src (Name d)) = Open w2 (Join src (Name d))) ->
  result (buildRequestReaderWithAllFiles (TW := Tar.goTar accept) w1 src)
    = result (buildRequestReaderWithAllFiles (TW := Tar.goTar accept) w2 src) /\
  forall s1 s2,
    result (buildRequestReaderWithAllFiles (TW := Tar.goTar accept) w1 src) = Returns s1 ->
    result (buildRequestReaderWithAllFiles (TW := Tar.goTar accept) w2 src) = Returns s2 ->
    exists es,
      Tar.readArchive s1 = Ok es /\ Tar.readArchive s2 = Ok es /\
      Forall2 (archived w1 src) (filesOf dir) es /\
      Forall2 (archived w2 src) (filesOf dir) es.
Proof.
  intros Hr1 Hr2 Hd1 Hd2 Hfiles.
  pose proof (builder_same_directory (TW := Tar.goTar accept)
                w1 w2 src srcAbs dir Hr1 Hr2 Hd1 Hd2 Hfiles) as Heq.
  split; [now rewrite Heq|].
  intros s1 s2 H1 H2.
  destruct (builder_returns accept w1 src srcAbs dir s1 Hr1 Hd1 H1)
    as (es1 & t1 & Hes1 & -> & _ & _).
  destruct (builder_returns accept w2 src srcAbs dir s2 Hr2 Hd2 H2)
    as (es2 & t2 & Hes2 & -> & _ & _).
  rewrite Heq, H2 in H1. injection H1 as Henc.
  assert (Hread1 : Tar.readArchive (encode es1) = Ok es1)
    by (apply readArchive_encode; eapply archived_sized; eassumption).
  assert (Hread2 : Tar.readArchive (encode es2) = Ok es2)
    by (apply readArchive_encode; eapply archived_sized; eassumption).
  assert (Hes : es2 = es1) by (rewrite Henc in Hread2; congruence).
  subst es2. exists es1. auto.
Qed.

Lemma unchanged_directory_same_entries_witness :
  result (buildRequestReaderWithAllFiles
            (TW := Tar.goTar Sample.acceptAll) Sample.ctxWorld "/flat")
    = result (buildRequestReaderWithAllFiles
                (TW := Tar.goTar Sample.acceptAll) Sample.laterWorld "/flat") /\
  forall s1 s2,
    result (buildRequestReaderWithAllFiles
              (TW := Tar.goTar Sample.acceptAll) Sample.ctxWorld "/flat") = Returns s1 ->
    result (buildRequestReaderWithAllFiles
              (TW := Tar.goTar Sample.acceptAll) Sample.laterWorld "/flat") = Returns s2 ->
    exists es,
      Tar.readArchive s1 = Ok es /\ Tar.readArchive s2 = Ok es /\
      Forall2 (archived Sample.ctxWorld "/flat")
              (filesOf [Sample.a_txt; Sample.b_txt]) es /\
      Forall2 (archived Sample.laterWorld "/flat")
              (filesOf [Sample.a_txt; Sample.b_txt]) es.
Proof.
  apply (unchanged_directory_same_entries
           Sample.acceptAll Sample.ctxWorld Sample.laterWorld "/flat" "/flat"
           [Sample.a_txt; Sample.b_txt]); try reflexivity.
  intros d0 [<- | [<- | []]]; reflexivity.
Defined.

(* ================================================================== *)
(** ** The build invoker *)

Section Relay.

Lemma scanLines_short data : forall cur n,
  n = Z.of_nat (List.length cur) ->
  shortLines data n = true ->
  Bufio.scanLines data cur n = (logLines data cur, None).
Proof.
  induction data as [|b data IH]; intros cur n Hn Hshort.
  - cbn. destruct cur as [|c cur].
    + now subst n.
    + subst n. cbn [List.length]. rewrite Nat2Z.inj_succ.
      destruct (Z.eqb_spec (Z.succ (Z.of_nat (List.length cur))) 0); [lia|reflexivity].
  - cbn [Bufio.scanLines logLines shortLines] in *.
    destruct (Bufio.isNewline b).
    + rewrite (IH [] 0 eq_refl Hshort). reflexivity.
    + apply andb_prop in Hshort. destruct Hshort as [Hlt Hrest].
      apply Z.ltb_lt in Hlt.
      destruct (Z.leb_spec Bufio.MaxScanTokenSize (n + 1)); [lia|].
      apply IH; [|assumption].
      subst n. cbn [List.length]. lia.
Qed.

Variable accept : Header -> bool.
Variable w : World.

(** [Build], once the archive is built and the build API has answered. *)
Lemma Build_streaming c src s body :
  result (buildRequestReaderWithAllFiles (TW := Tar.goTar accept) w src) = Returns s ->
  ImageBuild c s theOptions = Ok body ->
  Build accept w c src =
    {| ended := match (match snd (Bufio.scanLines (arriving body) [] 0) with
                       | Some e => Some e
                       | None => ending body
                       end) with
                | Some err => Fails err
                | None => Returns tt
                end;
       stdout := fst (Bufio.scanLines (arriving body) [] 0);
       requests := [(s, theOptions)];
       bodyClosed := true;
       archive := Some (buildRequestReaderWithAllFiles (TW := Tar.goTar accept) w src) |}.
Proof.
  intros Hs Hb. unfold Build. rewrite Hs. fold theOptions. rewrite Hb.
  destruct (Bufio.scanLines (arriving body) [] 0) as [lines scanErr]. reflexivity.
Qed.

(** The requests [Build] makes: none, or one with the fixed options. *)
Lemma Build_requests c src :
  requests (Build accept w c src) =
    match result (buildRequestReaderWithAllFiles (TW := Tar.goTar accept) w src) with
    | Returns s => [(s, theOptions)]
    | _ => []
    end.
Proof.
  unfold Build.
  destruct (result (buildRequestReaderWithAllFiles w src)) as [s|e|p]; try reflexivity.
  fold theOptions. destruct (ImageBuild c s theOptions) as [body|e]; [|reflexivity].
  destruct (Bufio.scanLines (arriving body) [] 0). reflexivity.
Qed.

End Relay.



(** The run of [Build] on a log whose first line has 65536 bytes, followed
    by the line [ok] and a clean end of stream: nothing is printed, and
    [Build] returns the scanner's "token too long" error. *)
Example long_log_line_run :
  stdout (Build Sample.acceptAll Sample.ctxWorld Sample.longClient "/flat") = [] /\
  ended (Build Sample.acceptAll Sample.ctxWorld Sample.longClient "/flat")
    = Fails Bufio.ErrTooLong /\
  List.length (logLines Sample.longLog []) = 2%nat.
Proof. vm_compute. repeat split. Qed.


(** Claim C9, as the code has it.  For every build invocation that reaches
    the build API, the options passed hold exactly one image tag, the
    constant [eldius/test-image] fixed in [Build]; it does not come from
    the caller, whose only input is the source path. *)
Theorem build_tag_is_fixed
    (accept : Header -> bool) (w : World) (c : Client) (src : string) (s : Stream) :
  result (buildRequestReaderWithAllFiles (TW := Tar.goTar accept) w src) = Returns s ->
  requests (Build accept w c src) = [(s, {| Tags := ["eldius/test-image"] |})].
Proof.
  intros Hs. rewrite Build_requests, Hs. reflexivity.
Qed.

Lemma build_tag_is_fixed_witness :
  requests (Build Sample.acceptAll Sample.ctxWorld Sample.stubClient "/flat")
    = [(encode [(headerOf Sample.a_txt Sample.hello {| Mode := 420 |}, Sample.hello);
                (headerOf Sample.b_txt [] {| Mode := 384 |}, [])],
        {| Tags := ["eldius/test-image"] |})].
Proof.
  apply (build_tag_is_fixed Sample.acceptAll Sample.ctxWorld Sample.stubClient "/flat").
  vm_compute. reflexivity.
Defined.

(** Called with the single argument [/flat], the command passes the tag
    [eldius/test-image] to the build API: a tag that is not among the
    arguments of the caller. *)
Lemma caller_tag_counterexample :
  ~ (forall (args : list string) (r : BuildRun),
       buildCmd Sample.acceptAll Sample.ctxWorld (Ok Sample.stubApi) args = Some r ->
       forall q tag,
         In q (requests r) -> In tag (Tags (snd q)) -> In tag args).
Proof.
  intros H.
  assert (Hin : In "eldius/test-image" ["/flat"]).
  { apply (H ["/flat"] _ eq_refl
             (encode [(headerOf Sample.a_txt Sample.hello {| Mode := 420 |}, Sample.hello);
                      (headerOf Sample.b_txt [] {| Mode := 384 |}, [])],
              theOptions)).
    - vm_compute. left. reflexivity.
    - left. reflexivity. }
  destruct Hin as [Heq | []]. discriminate Heq.
Qed.

(* ================================================================== *)
(** ** The whole pipeline on a small directory *)

(** [/flat] holds [a.txt] (5 bytes) and [b.txt] (empty); the build API
    answers with a two-line log.  The archive has the two entries, both
    lines are printed in order, and [Build] returns nil. *)
Example pipeline_on_two_files :
  exists s,
    requests (Build Sample.acceptAll Sample.ctxWorld Sample.stubClient "/flat")
      = [(s, theOptions)] /\
    Tar.readArchive s
      = Ok [({| hName := "a.txt"; hSize := 5; hMode := 420 |}, Sample.hello);
            ({| hName := "b.txt"; hSize := 0; hMode := 384 |}, [])] /\
    stdout (Build Sample.acceptAll Sample.ctxWorld Sample.stubClient "/flat")
      = [[x53; x74; x65; x70; x20; x31; x2f; x31]; [x6f; x6b]] /\
    ended (Build Sample.acceptAll Sample.ctxWorld Sample.stubClient "/flat")
      = Returns tt.
Proof. eexists. vm_compute. repeat split. Qed.

(** Lines end at a newline, lose one final carriage return, may be empty,
    and the last one needs no newline. *)
Example scanLines_splits :
  Bufio.scanLines [x61; x0d; x0a; x62; x0a; x0a; x63] [] 0
    = ([[x61]; [x62]; []; [x63]], None).
Proof. reflexivity. Qed.

(** The deferred [tw.Close()] also runs when the listing fails, and a
    panic of the loop goes through [Build]. *)
Example close_runs_on_failure :
  option_map Tar.buf
    (writer (buildRequestReaderWithAllFiles
               (TW := Tar.goTar Sample.acceptAll) Sample.emptyWorld "/nope"))
    = Some Tar.trailer /\
  ended (Build Sample.acceptAll Sample.faultyWorld Sample.stubClient "/race")
    = Panics nilDeref.
Proof. vm_compute. split; reflexivity. Qed.

(* ================================================================== *)
(** ** How the builder can end *)

Section Endings.

Context {W : Type} {TW : TarWriter W}.
Variable w : World.

Lemma resolve_none src :
  resolve w src = None -> IsAbs src = false /\ exists c, Getwd w = Err c.
Proof.
  unfold resolve. destruct (IsAbs src); [discriminate|].
  destruct (Getwd w) as [wd|c]; [discriminate|]. intros _. split; [reflexivity|].
  now exists c.
Qed.

(** An error of the loop body is of the [ContextFilesReadErr] kind. *)
Lemma addEntry_fails_kind src d (s s' : @St W) e :
  addEntry w src d s = (Fails e, s') ->
  errors_Is e ContextFilesReadErr = true.
Proof.
  unfold addEntry, readFile. destruct (IsDir d); cbn [negb]; [discriminate|].
  cbv beta iota zeta delta [defer bind call emit ret fail panic onWriter trace tw].
  destruct s as [tr t].
  destruct (Open w (Join src (Name d))) as [f|c]; [|now intros [= <- _]].
  destruct (ReadAll f) as [b|c]; [|now intros [= <- _]].
  destruct (Info d) as [i|c]; [|discriminate].
  destruct (tw_WriteHeader _ t) as [[c|] t1]; [now intros [= <- _]|].
  destruct (tw_Write b t1) as [[c|] t2]; [now intros [= <- _]|discriminate].
Qed.

(** A panic of the loop body is the nil dereference, on a file that was
    read and whose info lookup failed. *)
Lemma addEntry_panics_inv src d (s s' : @St W) p :
  addEntry w src d s = (Panics p, s') ->
  p = nilDeref /\ IsDir d = false /\ exists c, Info d = Err c.
Proof.
  unfold addEntry, readFile. destruct (IsDir d); cbn [negb]; [discriminate|].
  cbv beta iota zeta delta [defer bind call emit ret fail panic onWriter trace tw].
  destruct s as [tr t].
  destruct (Open w (Join src (Name d))) as [f|c]; [|discriminate].
  destruct (ReadAll f) as [b|c]; [|discriminate].
  destruct (Info d) as [i|c].
  - destruct (tw_WriteHeader _ t) as [[c|] t1]; [discriminate|].
    destruct (tw_Write b t1) as [[c|] t2]; discriminate.
  - intros [= <- _]. repeat split. now exists c.
Qed.

Lemma rangeDir_fails_kind src dir : forall (s s' : @St W) e,
  rangeDir w src dir s = (Fails e, s') ->
  errors_Is e ContextFilesReadErr = true.
Proof.
  induction dir as [|d0 dir IH]; intros s s' e; [discriminate|].
  cbn [rangeDir]. unfold bind.
  destruct (addEntry w src d0 s) as [[[]|e1|p1] s1] eqn:Hadd.
  - apply IH.
  - intros [= <- _]. eapply addEntry_fails_kind; eassumption.
  - discriminate.
Qed.

Lemma rangeDir_panics_inv src dir : forall (s s' : @St W) p,
  rangeDir w src dir s = (Panics p, s') ->
  p = nilDeref /\ exists d0 c, In d0 dir /\ IsDir d0 = false /\ Info d0 = Err c.
Proof.
  induction dir as [|d0 dir IH]; intros s s' p; [discriminate|].
  cbn [rangeDir]. unfold bind.
  destruct (addEntry w src d0 s) as [[[]|e1|p1] s1] eqn:Hadd.
  - intros H. destruct (IH _ _ _ H) as [Hp (d1 & c & Hin & Hd & Hi)].
    split; [assumption|]. exists d1, c. split; [now right | auto].
  - discriminate.
  - intros [= <- _].
    destruct (addEntry_panics_inv _ _ _ _ _ Hadd) as [Hp [Hd [c Hi]]].
    split; [assumption|]. exists d0, c. split; [now left | auto].
Qed.

End Endings.

(** Every error the builder returns is of one of its three kinds: it
    comes from making the path absolute ([DockerfileNotFoundErr]), from
    listing the directory ([ContextDirReadErr]), or from archiving a file
    or flushing the writer ([ContextFilesReadErr]). *)
Theorem builder_error_kinds
    (W : Type) (TW : TarWriter W) (w : World) (src : string) (e : error) :
  result (buildRequestReaderWithAllFiles w src) = Fails e ->
  errors_Is e DockerfileNotFoundErr = true \/
  errors_Is e ContextDirReadErr = true \/
  errors_Is e ContextFilesReadErr = true.
Proof.
  destruct (resolve w src) as [srcAbs|] eqn:Hres.
  - destruct (ReadDir w srcAbs) as [dir|c] eqn:Hdir.
    + rewrite (builder_listed w _ _ _ Hres Hdir).
      destruct (rangeDir w src dir _) as [[[]|e1|p1] s1] eqn:Hloop.
      * destruct (tw_Flush (tw s1)) as [[c|] t]; cbn [result]; [|discriminate].
        intros [= <-]. right. right. reflexivity.
      * cbn [result]. intros [= <-]. right. right.
        eapply rangeDir_fails_kind; eassumption.
      * discriminate.
    + rewrite (builder_listing_fails w _ _ _ Hres Hdir). cbn [result].
      intros [= <-]. right. left. reflexivity.
  - destruct (resolve_none w src Hres) as [Habs [c Hwd]].
    rewrite (builder_unresolved w src c Habs Hwd). cbn [result].
    intros [= <-]. left. reflexivity.
Qed.

Lemma builder_error_kinds_witness :
  errors_Is (Errorf ContextFilesReadErr " (opening locked):"
               (Errorf ContextFilesReadErr " (opening locked):"
                  (PathError "open" "/bad/locked" EACCES)))
            DockerfileNotFoundErr = true \/
  errors_Is (Errorf ContextFilesReadErr " (opening locked):"
               (Errorf ContextFilesReadErr " (opening locked):"
                  (PathError "open" "/bad/locked" EACCES)))
            ContextDirReadErr = true \/
  errors_Is (Errorf ContextFilesReadErr " (opening locked):"
               (Errorf ContextFilesReadErr " (opening locked):"
                  (PathError "open" "/bad/locked" EACCES)))
            ContextFilesReadErr = true.
Proof.
  apply (builder_error_kinds Tar.Writer (Tar.goTar Sample.acceptAll)
           Sample.faultyWorld "/bad").
  vm_compute. reflexivity.
Defined.

(** The builder panics in one way only: on the nil file info of a listed
    entry that is not a directory and whose info lookup failed.  When every
    lookup succeeds it ends by returning. *)
Theorem builder_panics_only_on_nil_info
    (W : Type) (TW : TarWriter W) (w : World) (src : string) (p : string) :
  result (buildRequestReaderWithAllFiles w src) = Panics p ->
  p = nilDeref /\
  exists srcAbs dir d0 c,
    resolve w src = Some srcAbs /\
    ReadDir w srcAbs = Ok dir /\
    In d0 dir /\ IsDir d0 = false /\ Info d0 = Err c.
Proof.
  destruct (resolve w src) as [srcAbs|] eqn:Hres.
  - destruct (ReadDir w srcAbs) as [dir|c] eqn:Hdir.
    + rewrite (builder_listed w _ _ _ Hres Hdir).
      destruct (rangeDir w src dir _) as [[[]|e1|p1] s1] eqn:Hloop.
      * destruct (tw_Flush (tw s1)) as [[c|] t]; discriminate.
      * discriminate.
      * cbn [result]. intros [= <-].
        destruct (rangeDir_panics_inv _ _ _ _ _ _ Hloop) as [Hp (d0 & c & Hin & Hd & Hi)].
        split; [assumption|]. exists srcAbs, dir, d0, c. auto.
    + rewrite (builder_listing_fails w _ _ _ Hres Hdir). discriminate.
  - destruct (resolve_none w src Hres) as [Habs [c Hwd]].
    rewrite (builder_unresolved w src c Habs Hwd). discriminate.
Qed.

Lemma builder_panics_only_on_nil_info_witness :
  nilDeref = nilDeref /\
  exists srcAbs dir d0 c,
    resolve Sample.faultyWorld "/race" = Some srcAbs /\
    ReadDir Sample.faultyWorld srcAbs = Ok dir /\
    In d0 dir /\ IsDir d0 = false /\ Info d0 = Err c.
Proof.
  apply (builder_panics_only_on_nil_info Tar.Writer (Tar.goTar Sample.acceptAll)
           Sample.faultyWorld "/race" nilDeref).
  vm_compute. reflexivity.
Defined.

(* ================================================================== *)
(** ** The files the builder opens *)

Lemma openFiles_app (w : World) (evs1 : list Event) : forall evs2 open,
  openFiles w (evs1 ++ evs2) open = openFiles w evs2 (openFiles w evs1 open).
Proof.
  induction evs1 as [|ev evs1 IH]; intros evs2 open; [reflexivity|].
  destruct ev; cbn [app openFiles]; try apply IH.
  destruct (Open w path); apply IH.
Qed.

Lemma opened_app (evs1 evs2 : list Event) :
  opened (evs1 ++ evs2) = opened evs1 ++ opened evs2.
Proof.
  induction evs1 as [|ev evs1 IH]; [reflexivity|].
  destruct ev; cbn [app opened]; rewrite IH; reflexivity.
Qed.

Section Opening.

Context {W : Type} {TW : TarWriter W}.
Variable w : World.

(** The calls of the loop body: it opens the file of an entry that is not
    a directory, and nothing else; whatever it opened it has closed when it
    ends, however it ends. *)
Lemma addEntry_calls src d0 (s s' : @St W) o :
  addEntry w src d0 s = (o, s') ->
  exists evs,
    trace s' = trace s ++ evs /\
    (forall open, openFiles w evs open = open) /\
    opened evs = if IsDir d0 then [] else [Join src (Name d0)].
Proof.
  unfold addEntry, readFile. destruct (IsDir d0); cbn [negb].
  - intros [= <- <-]. exists []. split; [now rewrite app_nil_r | split; reflexivity].
  - cbv beta iota zeta delta
      [defer bind call emit ret fail panic onWriter trace tw].
    destruct s as [tr t].
    destruct (Open w (Join src (Name d0))) as [f|c] eqn:Ho.
    + assert (Hpair : forall tail open,
                (forall open', openFiles w tail open' = open') ->
                forall mid, (forall open', openFiles w mid open' = open') ->
                openFiles w (EvOpen (Join src (Name d0)) :: mid ++
                             EvClose (Join src (Name d0)) :: tail) open = open).
      { intros tail open Htail mid Hmid. cbn [openFiles]. rewrite Ho.
        rewrite openFiles_app, Hmid. cbn [openFiles removeFirst].
        rewrite String.eqb_refl. apply Htail. }
      destruct (ReadAll f) as [b|c].
      * destruct (Info d0) as [i|c].
        -- destruct (tw_WriteHeader _ t) as [[c|] t1].
           ++ intros [= <- <-].
              exists ([EvOpen (Join src (Name d0))] ++ [EvSlog (Name d0) b] ++
                      [EvClose (Join src (Name d0))] ++ [EvInfo (Name d0)]).
              split; [now rewrite !app_assoc|]. split; [|reflexivity].
              intros open.
              apply (Hpair [EvInfo (Name d0)] open (fun _ => eq_refl)
                       [EvSlog (Name d0) b] (fun _ => eq_refl)).
           ++ destruct (tw_Write b t1) as [[c|] t2]; intros [= <- <-];
                (exists ([EvOpen (Join src (Name d0))] ++ [EvSlog (Name d0) b] ++
                         [EvClose (Join src (Name d0))] ++ [EvInfo (Name d0)]);
                 split; [now rewrite !app_assoc|]; split; [|reflexivity];
                 intros open;
                 apply (Hpair [EvInfo (Name d0)] open (fun _ => eq_refl)
                          [EvSlog (Name d0) b] (fun _ => eq_refl))).
        -- intros [= <- <-].
           exists ([EvOpen (Join src (Name d0))] ++ [EvSlog (Name d0) b] ++
                   [EvClose (Join src (Name d0))] ++ [EvInfo (Name d0)]).
           split; [now rewrite !app_assoc|]. split; [|reflexivity].
           intros open.
              apply (Hpair [EvInfo (Name d0)] open (fun _ => eq_refl)
                       [EvSlog (Name d0) b] (fun _ => eq_refl)).
      * intros [= <- <-].
        exists ([EvOpen (Join src (Name d0))] ++ [EvClose (Join src (Name d0))]).
        split; [now rewrite !app_assoc|]. split; [|reflexivity].
        intros open. apply (Hpair [] open (fun _ => eq_refl) [] (fun _ => eq_refl)).
    + intros [= <- <-]. exists [EvOpen (Join src (Name d0))].
      split; [reflexivity|]. split; [|reflexivity].
      intros open. cbn [openFiles]. now rewrite Ho.
Qed.

(** The calls of the loop: the files opened are, in order, an initial
    segment of the files of the listing, and all of them when the loop
    runs to its end; no file is left open. *)
Lemma rangeDir_calls src dir : forall (s s' : @St W) o,
  rangeDir w src dir s = (o, s') ->
  exists evs files rest,
    trace s' = trace s ++ evs /\
    (forall open, openFiles w evs open = open) /\
    filesOf dir = files ++ rest /\
    opened evs = map (fun d0 => Join src (Name d0)) files /\
    (o = Returns tt -> rest = []).
Proof.
  induction dir as [|d0 dir IH]; intros s s' o.
  - intros [= <- <-]. exists [], [], []. rewrite app_nil_r. repeat split.
  - cbn [rangeDir]. unfold bind.
    destruct (addEntry w src d0 s) as [o1 s1] eqn:Hadd.
    destruct (addEntry_calls _ _ _ _ _ Hadd) as (evs1 & Ht1 & Hc1 & Ho1).
    assert (Hstop : o1 <> Returns tt -> (o, s') = (o1, s1) ->
              exists evs files rest,
                trace s' = trace s ++ evs /\
                (forall open, openFiles w evs open = open) /\
                filesOf (d0 :: dir) = files ++ rest /\
                opened evs = map (fun d1 => Join src (Name d1)) files /\
                (o = Returns tt -> rest = [])).
    { intros Hne [= -> ->]. unfold filesOf. cbn [filter].
      destruct (IsDir d0) eqn:Hd; cbn [negb].
      - rewrite (addEntry_directory w src d0 s Hd) in Hadd.
        injection Hadd as <- _. now contradiction Hne.
      - exists evs1, [d0], (filter (fun d1 => negb (IsDir d1)) dir).
        repeat split; try assumption. intros H. now contradiction Hne. }
    destruct o1 as [[]|e1|p1].
    + intros Hrest.
      destruct (IH _ _ _ Hrest) as (evs2 & files & rest & Ht2 & Hc2 & Hf & Ho2 & Hall).
      unfold filesOf in *. cbn [filter].
      destruct (IsDir d0); cbn [negb].
      * exists (evs1 ++ evs2), files, rest. repeat split; try assumption.
        -- now rewrite Ht2, Ht1, app_assoc.
        -- intros open. now rewrite openFiles_app, Hc1, Hc2.
        -- now rewrite opened_app, Ho1, Ho2.
      * exists (evs1 ++ evs2), (d0 :: files), rest. repeat split; try assumption.
        -- now rewrite Ht2, Ht1, app_assoc.
        -- intros open. now rewrite openFiles_app, Hc1, Hc2.
        -- now rewrite Hf.
        -- now rewrite opened_app, Ho1, Ho2.
    + intros H. apply Hstop; [discriminate | now symmetry].
    + intros H. apply Hstop; [discriminate | now symmetry].
Qed.

End Opening.

Lemma opened_afterListing (W : Type) (TW : TarWriter W) (w : World) src srcAbs :
  opened (trace (afterListing (TW := TW) src srcAbs)) = [] /\
  forall open, openFiles w (trace (afterListing (TW := TW) src srcAbs)) open = open.
Proof. unfold afterListing. cbn [trace]. destruct (IsAbs src); split; reflexivity. Qed.

(** The events of a run that got its listing are those of the loop. *)
Lemma builder_events (W : Type) (TW : TarWriter W) (w : World) src srcAbs dir :
  resolve w src = Some srcAbs ->
  ReadDir w srcAbs = Ok dir ->
  events (buildRequestReaderWithAllFiles w src)
    = trace (snd (rangeDir w src dir (afterListing src srcAbs))) /\
  (forall s, result (buildRequestReaderWithAllFiles w src) = Returns s ->
             fst (rangeDir w src dir (afterListing src srcAbs)) = Returns tt).
Proof.
  intros Hres Hdir. rewrite (builder_listed w _ _ _ Hres Hdir).
  destruct (rangeDir w src dir _) as [[[]|e1|p1] s1]; cbn [fst snd].
  - destruct (tw_Flush (tw s1)) as [[c|] t]; split; auto.
  - split; [reflexivity | discriminate].
  - split; [reflexivity | discriminate].
Qed.

(** Every file the builder has opened it has closed by the time it ends,
    whether it returns an archive, returns an error or panics. *)
Theorem builder_leaves_no_file_open
    (W : Type) (TW : TarWriter W) (w : World) (src : string) :
  openFiles w (events (buildRequestReaderWithAllFiles w src)) [] = [].
Proof.
  destruct (resolve w src) as [srcAbs|] eqn:Hres.
  - destruct (ReadDir w srcAbs) as [dir|c] eqn:Hdir.
    + destruct (builder_events W TW w src srcAbs dir Hres Hdir) as [-> _].
      destruct (rangeDir w src dir (afterListing src srcAbs)) as [o s1] eqn:Hloop.
      destruct (rangeDir_calls w _ _ _ _ _ Hloop) as (evs & _ & _ & Ht & Hc & _).
      cbn [snd]. rewrite Ht, openFiles_app, Hc.
      apply (opened_afterListing W TW w src srcAbs).
    + rewrite (builder_listing_fails w _ _ _ Hres Hdir). cbn [events].
      destruct (IsAbs src); reflexivity.
  - destruct (resolve_none w src Hres) as [Habs [c Hwd]].
    rewrite (builder_unresolved w src c Habs Hwd). reflexivity.
Qed.

(** The files the builder opens are, in the order of the listing, the
    entries of the listing that are not directories, each under the source
    path as it was given ([src], not its absolute form); it opens all of
    them when it returns an archive, and an initial segment of them
    otherwise.  A directory of the listing is never opened. *)
Theorem builder_opens_listed_files
    (W : Type) (TW : TarWriter W) (w : World) (src srcAbs : string)
    (dir : list DirEntry) :
  resolve w src = Some srcAbs ->
  ReadDir w srcAbs = Ok dir ->
  exists files rest,
    filesOf dir = files ++ rest /\
    opened (events (buildRequestReaderWithAllFiles w src))
      = map (fun d0 => Join src (Name d0)) files /\
    (forall s, result (buildRequestReaderWithAllFiles w src) = Returns s ->
               rest = []).
Proof.
  intros Hres Hdir.
  destruct (builder_events W TW w src srcAbs dir Hres Hdir) as [-> Hret].
  destruct (rangeDir w src dir (afterListing src srcAbs)) as [o s1] eqn:Hloop.
  destruct (rangeDir_calls w _ _ _ _ _ Hloop)
    as (evs & files & rest & Ht & _ & Hf & Ho & Hall).
  exists files, rest. cbn [snd fst] in *. split; [assumption|]. split.
  - rewrite Ht, opened_app, Ho.
    now destruct (opened_afterListing W TW w src srcAbs) as [-> _].
  - intros s Hs. apply Hall. eapply Hret; eassumption.
Qed.

Lemma builder_opens_listed_files_witness :
  exists files rest,
    filesOf [Sample.a_txt; Sample.locked; Sample.b_txt] = files ++ rest /\
    opened (events (buildRequestReaderWithAllFiles
                      (TW := Tar.goTar Sample.acceptAll) Fixture.midWorld "/mid"))
      = map (fun d0 => Join "/mid" (Name d0)) files /\
    (forall s, result (buildRequestReaderWithAllFiles
                         (TW := Tar.goTar Sample.acceptAll) Fixture.midWorld "/mid")
               = Returns s -> rest = []).
Proof.
  apply (builder_opens_listed_files Tar.Writer (Tar.goTar Sample.acceptAll)
           Fixture.midWorld "/mid" "/mid"); reflexivity.
Defined.

(** The loop stops at the first entry that fails or panics: the run ends
    in the state that entry left, and the entries after it are not opened,
    whatever they are. *)
Theorem builder_stops_at_first_failure
    (W : Type) (TW : TarWriter W) (w : World) (src srcAbs : string)
    (pre : list DirEntry) (d0 : DirEntry) (post : list DirEntry)
    (s s' : @St W) (o : Outcome unit) :
  resolve w src = Some srcAbs ->
  ReadDir w srcAbs = Ok (pre ++ d0 :: post) ->
  processed w src srcAbs pre s ->
  addEntry w src d0 s = (o, s') ->
  o <> Returns tt ->
  events (buildRequestReaderWithAllFiles w src) = trace s' /\
  opened (events (buildRequestReaderWithAllFiles w src))
    = map (fun d1 => Join src (Name d1)) (filesOf pre ++ [d0]).
Proof.
  intros Hres Hdir Hpre Hadd Hne.
  assert (Hd : IsDir d0 = false).
  { destruct (IsDir d0) eqn:Hd; [|reflexivity].
    rewrite (addEntry_directory w src d0 s Hd) in Hadd.
    injection Hadd as <- _. now contradiction Hne. }
  assert (Hloop : rangeDir w src (pre ++ d0 :: post) (afterListing src srcAbs) = (o, s')).
  { rewrite rangeDir_app. unfold processed in Hpre. rewrite Hpre.
    destruct o as [[]|e1|p1].
    - now contradiction Hne.
    - now apply rangeDir_stops_on_error.
    - now apply rangeDir_stops_on_panic. }
  destruct (builder_events W TW w src srcAbs _ Hres Hdir) as [Hev _].
  rewrite Hev, Hloop. cbn [snd]. split; [reflexivity|].
  destruct (rangeDir_calls w _ _ _ _ _ Hpre)
    as (evs & files & rest & Ht & _ & Hf & Ho & Hall).
  rewrite (Hall eq_refl), app_nil_r in Hf.
  destruct (addEntry_calls w _ _ _ _ _ Hadd) as (evs1 & Ht1 & _ & Ho1).
  rewrite Hd in Ho1.
  rewrite Ht1, Ht, !opened_app, Ho, Ho1, Hf, map_app.
  now destruct (opened_afterListing W TW w src srcAbs) as [-> _].
Qed.

Lemma builder_stops_at_first_failure_witness :
  events (buildRequestReaderWithAllFiles
            (TW := Tar.goTar Sample.acceptAll) Fixture.midWorld "/mid")
    = [EvReadDir "/mid"; EvOpen "/mid/a.txt"; EvSlog "a.txt" Sample.hello;
       EvClose "/mid/a.txt"; EvInfo "a.txt"; EvOpen "/mid/locked"] /\
  opened (events (buildRequestReaderWithAllFiles
                    (TW := Tar.goTar Sample.acceptAll) Fixture.midWorld "/mid"))
    = map (fun d1 => Join "/mid" (Name d1)) (filesOf [Sample.a_txt] ++ [Sample.locked]).
Proof.
  exact (builder_stops_at_first_failure
           Tar.Writer (Tar.goTar Sample.acceptAll) Fixture.midWorld "/mid" "/mid"
           [Sample.a_txt] Sample.locked [Sample.b_txt]
           (snd (rangeDir (TW := Tar.goTar Sample.acceptAll) Fixture.midWorld "/mid"
                   [Sample.a_txt]
                   (afterListing (TW := Tar.goTar Sample.acceptAll) "/mid" "/mid")))
           (snd (addEntry (TW := Tar.goTar Sample.acceptAll) Fixture.midWorld "/mid"
                   Sample.locked
                   (snd (rangeDir (TW := Tar.goTar Sample.acceptAll) Fixture.midWorld
                           "/mid" [Sample.a_txt]
                           (afterListing (TW := Tar.goTar Sample.acceptAll)
                              "/mid" "/mid")))))
           (Fails (Errorf ContextFilesReadErr " (opening locked):"
                     (Errorf ContextFilesReadErr " (opening locked):"
                        (PathError "open" "/mid/locked" EACCES))))
           eq_refl eq_refl eq_refl eq_refl
           ltac:(discriminate)).
Defined.

(* ================================================================== *)
(** ** The returned stream and the closed buffer *)

Lemma consEntry_all (es : list Tar.Entry) :
  fold_right Tar.consEntry (Ok []) es = Ok es.
Proof. induction es as [|e es IH]; cbn; [|rewrite IH]; reflexivity. Qed.

Lemma read_trailer : Tar.readCells Tar.AtHeader Tar.trailer = Ok [].
Proof. vm_compute. reflexivity. Qed.

(** A run that returns has resolved the path and listed the directory. *)
Lemma builder_returns_listed
    (W : Type) (TW : TarWriter W) (w : World) (src : string) (s : Stream) :
  result (buildRequestReaderWithAllFiles w src) = Returns s ->
  exists srcAbs dir, resolve w src = Some srcAbs /\ ReadDir w srcAbs = Ok dir.
Proof.
  destruct (resolve w src) as [srcAbs|] eqn:Hres.
  - destruct (ReadDir w srcAbs) as [dir|c] eqn:Hdir.
    + intros _. now exists srcAbs, dir.
    + rewrite (builder_listing_fails w _ _ _ Hres Hdir). discriminate.
  - destruct (resolve_none w src Hres) as [Habs [c Hwd]].
    rewrite (builder_unresolved w src c Habs Hwd). discriminate.
Qed.

(** The stream the builder returns and the buffer the deferred
    [tw.Close()] leaves hold the same entries: the buffer is the returned
    stream followed by the end-of-archive marker, and a reader that takes
    the end of the input for the end of the archive reads the same entries
    from both. *)
Theorem returned_stream_has_entries_of_closed_buffer
    (accept : Header -> bool) (w : World) (src : string) (s : Stream) :
  result (buildRequestReaderWithAllFiles (TW := Tar.goTar accept) w src) = Returns s ->
  exists es t,
    writer (buildRequestReaderWithAllFiles (TW := Tar.goTar accept) w src) = Some t /\
    Tar.buf t = s ++ Tar.trailer /\
    Tar.readArchive s = Ok es /\
    Tar.readArchive (Tar.buf t) = Ok es.
Proof.
  intros Hs.
  destruct (builder_returns_listed _ (Tar.goTar accept) w src s Hs)
    as (srcAbs & dir & Hres & Hdir).
  destruct (builder_returns accept w src srcAbs dir s Hres Hdir Hs)
    as (es & t & Hes & -> & Hw & Hb).
  pose proof (archived_sized w src _ _ Hes) as Hsized.
  exists es, t. split; [assumption|]. split; [assumption|]. split.
  - now apply readArchive_encode.
  - rewrite Hb. unfold Tar.readArchive.
    rewrite (read_encode es Tar.trailer Hsized), read_trailer.
    apply consEntry_all.
Qed.

Lemma returned_stream_has_entries_of_closed_buffer_witness :
  exists es t,
    writer (buildRequestReaderWithAllFiles
              (TW := Tar.goTar Sample.acceptAll) Sample.ctxWorld "/ctx") = Some t /\
    Tar.buf t
      = encode [(headerOf Sample.a_txt Sample.hello {| Mode := 420 |}, Sample.hello);
                (headerOf Sample.b_txt [] {| Mode := 384 |}, [])] ++ Tar.trailer /\
    Tar.readArchive
      (encode [(headerOf Sample.a_txt Sample.hello {| Mode := 420 |}, Sample.hello);
               (headerOf Sample.b_txt [] {| Mode := 384 |}, [])]) = Ok es /\
    Tar.readArchive (Tar.buf t) = Ok es.
Proof.
  apply (returned_stream_has_entries_of_closed_buffer
           Sample.acceptAll Sample.ctxWorld "/ctx").
  vm_compute. reflexivity.
Defined.

Lemma dataLength_app (s1 s2 : Stream) :
  dataLength (s1 ++ s2) = dataLength s1 + dataLength s2.
Proof.
  induction s1 as [|c s1 IH]; [reflexivity|].
  destruct c; cbn [app dataLength]; rewrite IH; lia.
Qed.

Lemma dataLength_raw (bs : bytes) : dataLength (raw bs) = Z.of_nat (List.length bs).
Proof.
  induction bs as [|b bs IH]; [reflexivity|].
  cbn [raw map dataLength List.length]. fold (raw bs). rewrite IH. lia.
Qed.

Lemma dataLength_zeros (n : Z) : 0 <= n -> dataLength (zeros n) = n.
Proof.
  intros Hn. unfold zeros. rewrite <- (Z2Nat.id n) at 2 by assumption.
  induction (Z.to_nat n) as [|k IH]; [reflexivity|].
  cbn [repeat dataLength]. rewrite IH. lia.
Qed.

Lemma padded_to_block (n : Z) : (n + blockPadding n) mod 512 = 0.
Proof.
  unfold blockPadding, blockSize. change (512 - 1) with (Z.ones 9).
  rewrite Z.land_ones by lia. change (2 ^ 9) with 512.
  rewrite Z.add_mod_idemp_r by lia.
  replace (n + - n) with 0 by lia. reflexivity.
Qed.

Lemma dataLength_encode (es : list Tar.Entry) :
  Forall sized es -> dataLength (encode es) mod 512 = 0.
Proof.
  induction 1 as [|[h data] es Hs _ IH]; [reflexivity|].
  unfold encode in *. cbn [flat_map]. rewrite dataLength_app.
  rewrite Z.add_mod, IH by lia.
  unfold encodeEntry. cbn [fst snd dataLength].
  rewrite dataLength_app, dataLength_raw, dataLength_zeros
    by apply blockPadding_range.
  unfold sized in Hs. cbn [fst snd] in Hs. rewrite <- Hs.
  rewrite padded_to_block. reflexivity.
Qed.

(** In every stream the builder returns, content and padding fill whole
    blocks of 512 bytes: the final [tw.Flush()] pads the last entry as
    [WriteHeader] pads the ones before. *)
Theorem returned_stream_is_block_aligned
    (accept : Header -> bool) (w : World) (src : string) (s : Stream) :
  result (buildRequestReaderWithAllFiles (TW := Tar.goTar accept) w src) = Returns s ->
  dataLength s mod 512 = 0.
Proof.
  intros Hs.
  destruct (builder_returns_listed _ (Tar.goTar accept) w src s Hs)
    as (srcAbs & dir & Hres & Hdir).
  destruct (builder_returns accept w src srcAbs dir s Hres Hdir Hs)
    as (es & t & Hes & -> & _ & _).
  apply dataLength_encode. eapply archived_sized; eassumption.
Qed.

Lemma returned_stream_is_block_aligned_witness :
  dataLength
    (encode [(headerOf Sample.a_txt Sample.hello {| Mode := 420 |}, Sample.hello);
             (headerOf Sample.b_txt [] {| Mode := 384 |}, [])]) mod 512 = 0.
Proof.
  apply (returned_stream_is_block_aligned Sample.acceptAll Sample.ctxWorld "/ctx").
  vm_compute. reflexivity.
Defined.

(* ================================================================== *)
(** ** The builder for the Dockerfile alone *)

Section DockerfileOnly.

Variable accept : Header -> bool.
Variable w : World.

Ltac run_single :=
  cbv beta iota zeta delta
    [defer bind call emit ret fail panic onWriter trace tw readFile
     tw_WriteHeader tw_Write tw_Flush tw_Close tw_Bytes tw_New Tar.goTar
     Tar.WriteHeader Tar.Flush Tar.Close Tar.NewWriter
     Tar.err Tar.nb Tar.buf Tar.pad fst snd].

(** The single-file builder, by what opening and reading the Dockerfile
    give: [b] is the content read, or nothing when the read failed. *)
Lemma single_file_run src srcAbs (b : bytes) :
  resolve w src = Some srcAbs ->
  b = match Open w (Join srcAbs "Dockerfile") with
      | Ok f => match ReadAll f with Ok b => b | Err _ => [] end
      | Err _ => []
      end ->
  result (buildRequestReaderWithDockerfile (TW := Tar.goTar accept) w src) =
    if accept {| hName := "Dockerfile"; hSize := Z.of_nat (List.length b); hMode := 0 |}
    then
      match b with
      | [] => Returns (HdrBlock {| hName := "Dockerfile"; hSize := 0; hMode := 0 |}
                         :: Tar.trailer)
      | _ => Fails (Errorf ContextFilesReadErr " (closing header):" Tar.ErrMissedWriting)
      end
    else Fails (Errorf ContextFilesReadErr " (writing Dockerfile):" Tar.ErrCannotEncode).
Proof.
  intros Hres Hb. unfold buildRequestReaderWithDockerfile.
  erewrite Abs_resolved by eassumption.
  run_single.
  destruct (Open w (Join srcAbs "Dockerfile")) as [f|c];
    [destruct (ReadAll f) as [b1|c]|]; subst b;
    try (cbn [List.length Z.of_nat Z.ltb Z.compare];
         destruct (accept _); reflexivity).
  destruct b1 as [|b0 b1];
    cbn [List.length Z.of_nat Z.ltb Z.compare]; destruct (accept _); reflexivity.
Qed.

End DockerfileOnly.

(** The single-file builder cannot archive a Dockerfile that has content:
    it announces the size of the content in the header but never writes
    the content, so closing the writer fails and the function returns an
    error of the [ContextFilesReadErr] kind, "closing header". *)
Theorem dockerfile_with_content_is_refused
    (accept : Header -> bool) (w : World) (src srcAbs : string)
    (f : File) (b : bytes) :
  resolve w src = Some srcAbs ->
  Open w (Join srcAbs "Dockerfile") = Ok f ->
  ReadAll f = Ok b ->
  b <> [] ->
  accept {| hName := "Dockerfile"; hSize := Z.of_nat (List.length b); hMode := 0 |} = true ->
  result (buildRequestReaderWithDockerfile (TW := Tar.goTar accept) w src)
    = Fails (Errorf ContextFilesReadErr " (closing header):" Tar.ErrMissedWriting).
Proof.
  intros Hres Ho Hr Hne Hacc.
  rewrite (single_file_run accept w src srcAbs b Hres) by now rewrite Ho, Hr.
  rewrite Hacc. destruct b; [contradiction|reflexivity].
Qed.

Lemma dockerfile_with_content_is_refused_witness :
  result (buildRequestReaderWithDockerfile
            (TW := Tar.goTar Sample.acceptAll) Fixture.dockerWorld "/img")
    = Fails (Errorf ContextFilesReadErr " (closing header):" Tar.ErrMissedWriting).
Proof.
  apply (dockerfile_with_content_is_refused
           Sample.acceptAll Fixture.dockerWorld "/img" "/img"
           {| ReadAll := Ok Fixture.fromLine |} Fixture.fromLine);
    try reflexivity.
  discriminate.
Defined.

(** The single-file builder does not report a Dockerfile that cannot be
    opened: the error of [readFile] is dropped, and the function returns,
    without error, an archive with one empty entry named [Dockerfile]. *)
Theorem missing_dockerfile_is_not_reported
    (accept : Header -> bool) (w : World) (src srcAbs : string) (c : error) :
  resolve w src = Some srcAbs ->
  Open w (Join srcAbs "Dockerfile") = Err c ->
  accept {| hName := "Dockerfile"; hSize := 0; hMode := 0 |} = true ->
  result (buildRequestReaderWithDockerfile (TW := Tar.goTar accept) w src)
    = Returns (HdrBlock {| hName := "Dockerfile"; hSize := 0; hMode := 0 |}
                 :: Tar.trailer) /\
  Tar.readArchive (HdrBlock {| hName := "Dockerfile"; hSize := 0; hMode := 0 |}
                     :: Tar.trailer)
    = Ok [({| hName := "Dockerfile"; hSize := 0; hMode := 0 |}, [])].
Proof.
  intros Hres Ho Hacc. split.
  - rewrite (single_file_run accept w src srcAbs [] Hres) by now rewrite Ho.
    cbn [List.length Z.of_nat]. now rewrite Hacc.
  - vm_compute. reflexivity.
Qed.

Lemma missing_dockerfile_is_not_reported_witness :
  result (buildRequestReaderWithDockerfile
            (TW := Tar.goTar Sample.acceptAll) Fixture.dockerWorld "/none")
    = Returns (HdrBlock {| hName := "Dockerfile"; hSize := 0; hMode := 0 |}
                 :: Tar.trailer) /\
  Tar.readArchive (HdrBlock {| hName := "Dockerfile"; hSize := 0; hMode := 0 |}
                     :: Tar.trailer)
    = Ok [({| hName := "Dockerfile"; hSize := 0; hMode := 0 |}, [])].
Proof.
  apply (missing_dockerfile_is_not_reported
           Sample.acceptAll Fixture.dockerWorld "/none" "/none"
           (Sample.noent "open" "/none/Dockerfile")); reflexivity.
Defined.

(** Whatever the single-file builder returns is a closed archive: the
    stream ends with the end-of-archive marker (the writer is closed before
    the buffer is read), and it holds exactly one entry, named
    [Dockerfile], with no content. *)
Theorem dockerfile_archive_is_closed_and_empty
    (accept : Header -> bool) (w : World) (src : string) (s : Stream) :
  result (buildRequestReaderWithDockerfile (TW := Tar.goTar accept) w src) = Returns s ->
  Tar.terminated s /\
  Tar.readArchive s = Ok [({| hName := "Dockerfile"; hSize := 0; hMode := 0 |}, [])].
Proof.
  destruct (resolve w src) as [srcAbs|] eqn:Hres.
  - rewrite (single_file_run accept w src srcAbs _ Hres eq_refl).
    destruct (accept _); [|discriminate].
    destruct (match Open w (Join srcAbs "Dockerfile") with
              | Ok f => match ReadAll f with Ok b => b | Err _ => [] end
              | Err _ => []
              end) as [|b0 b']; [|discriminate].
    intros [= <-]. split.
    + exists [HdrBlock {| hName := "Dockerfile"; hSize := Z.of_nat 0; hMode := 0 |}].
      reflexivity.
    + vm_compute. reflexivity.
  - unfold resolve in Hres. unfold buildRequestReaderWithDockerfile, Abs.
    destruct (IsAbs src); [discriminate|].
    cbv beta iota zeta delta [bind call emit ret trace tw app].
    destruct (Getwd w); [discriminate|]. discriminate.
Qed.

Lemma dockerfile_archive_is_closed_and_empty_witness :
  Tar.terminated (HdrBlock {| hName := "Dockerfile"; hSize := 0; hMode := 0 |}
                    :: Tar.trailer) /\
  Tar.readArchive (HdrBlock {| hName := "Dockerfile"; hSize := 0; hMode := 0 |}
                     :: Tar.trailer)
    = Ok [({| hName := "Dockerfile"; hSize := 0; hMode := 0 |}, [])].
Proof.
  apply (dockerfile_archive_is_closed_and_empty
           Sample.acceptAll Fixture.dockerWorld "/bare").
  vm_compute. reflexivity.
Defined.

(* ================================================================== *)
(** ** How [Build] and the command end *)

(** Wrapping keeps the kinds of the cause: what [errors.Is] finds in the
    cause it finds in the wrapped error. *)
Lemma errors_Is_wrapped (k target : Sentinel) (ctx : string) (e : error) :
  errors_Is e target = true -> errors_Is (Errorf k ctx e) target = true.
Proof. intros H. cbn [errors_Is]. rewrite H. apply orb_true_r. Qed.

(** When the archive builder fails, [Build] makes no request to the build
    API and prints nothing; its error is of the [ImageBuildErr] kind, wraps
    the error of the builder and keeps every kind that error has. *)
Theorem Build_reports_builder_failure
    (accept : Header -> bool) (w : World) (c : Client) (src : string) (e : error) :
  result (buildRequestReaderWithAllFiles (TW := Tar.goTar accept) w src) = Fails e ->
  ended (Build accept w c src) = Fails (Errorf ImageBuildErr ": " e) /\
  requests (Build accept w c src) = [] /\
  stdout (Build accept w c src) = [] /\
  errors_Is (Errorf ImageBuildErr ": " e) ImageBuildErr = true /\
  (forall k, errors_Is e k = true -> errors_Is (Errorf ImageBuildErr ": " e) k = true) /\
  Error (Errorf ImageBuildErr ": " e) = ("failed to build image: " ++ Error e)%string.
Proof.
  intros He. unfold Build. rewrite He. cbn [ended requests stdout].
  repeat split. intros k. apply errors_Is_wrapped.
Qed.

Lemma Build_reports_builder_failure_witness :
  ended (Build Sample.acceptAll Sample.emptyWorld Sample.stubClient "nope")
    = Fails (Errorf ImageBuildErr ": "
               (Errorf ContextDirReadErr ": " (PathError "open" "/work/nope" ENOENT))) /\
  requests (Build Sample.acceptAll Sample.emptyWorld Sample.stubClient "nope") = [] /\
  stdout (Build Sample.acceptAll Sample.emptyWorld Sample.stubClient "nope") = [] /\
  errors_Is (Errorf ImageBuildErr ": "
               (Errorf ContextDirReadErr ": " (PathError "open" "/work/nope" ENOENT)))
            ImageBuildErr = true /\
  (forall k,
     errors_Is (Errorf ContextDirReadErr ": " (PathError "open" "/work/nope" ENOENT)) k
       = true ->
     errors_Is (Errorf ImageBuildErr ": "
                  (Errorf ContextDirReadErr ": " (PathError "open" "/work/nope" ENOENT)))
               k = true) /\
  Error (Errorf ImageBuildErr ": "
           (Errorf ContextDirReadErr ": " (PathError "open" "/work/nope" ENOENT)))
    = ("failed to build image: " ++
       Error (Errorf ContextDirReadErr ": " (PathError "open" "/work/nope" ENOENT)))%string.
Proof.
  apply (Build_reports_builder_failure
           Sample.acceptAll Sample.emptyWorld Sample.stubClient "nope").
  reflexivity.
Defined.

(** The scanner gives the lines of the log from the first on, in order,
    and no others. *)
Lemma scanLines_prefix data : forall cur n,
  n = Z.of_nat (List.length cur) ->
  exists rest, logLines data cur = fst (Bufio.scanLines data cur n) ++ rest.
Proof.
  induction data as [|b data IH]; intros cur n Hn.
  - exists []. cbn. destruct cur as [|c cur].
    + now subst n.
    + subst n. cbn [List.length]. rewrite Nat2Z.inj_succ.
      destruct (Z.eqb_spec (Z.succ (Z.of_nat (List.length cur))) 0); [lia|reflexivity].
  - cbn [Bufio.scanLines logLines].
    destruct (Bufio.isNewline b).
    + destruct (IH [] 0 eq_refl) as [rest Hrest].
      destruct (Bufio.scanLines data [] 0) as [tokens e]. cbn [fst] in *.
      exists rest. now rewrite Hrest.
    + destruct (Bufio.MaxScanTokenSize <=? n + 1).
      * eexists. reflexivity.
      * apply IH. subst n. cbn [List.length]. lia.
Qed.

(** On a log with a line that fills its buffer the scanner ends with
    "token too long". *)
Lemma scanLines_long data : forall cur n,
  shortLines data n = false ->
  snd (Bufio.scanLines data cur n) = Some Bufio.ErrTooLong.
Proof.
  induction data as [|b data IH]; intros cur n; [discriminate|].
  cbn [Bufio.scanLines shortLines].
  destruct (Bufio.isNewline b).
  - intros H. specialize (IH [] 0 H).
    destruct (Bufio.scanLines data [] 0) as [tokens e]. exact IH.
  - destruct (Z.ltb_spec (n + 1) Bufio.MaxScanTokenSize) as [Hlt|Hge]; cbn [andb].
    + destruct (Z.leb_spec Bufio.MaxScanTokenSize (n + 1)); [lia|]. apply IH.
    + intros _. destruct (Z.leb_spec Bufio.MaxScanTokenSize (n + 1)); [reflexivity|lia].
Qed.

(** Every error [Build] returns comes from one of three places.  The
    archive builder failed: the error wraps the builder's under
    [ImageBuildErr] and no request was made.  The build API refused the one
    request: the error wraps the cause under [BuildDockerAPIErr], nothing
    was printed and there is no stream to close.  Or the log was being
    relayed: the stream has been closed, and the error is "token too long"
    when a line fills the scanner's buffer, and otherwise the read error
    that ended the stream, unwrapped. *)
Theorem Build_error_classification
    (accept : Header -> bool) (w : World) (c : Client) (src : string) (e : error) :
  ended (Build accept w c src) = Fails e ->
  (exists e0,
     result (buildRequestReaderWithAllFiles (TW := Tar.goTar accept) w src) = Fails e0 /\
     e = Errorf ImageBuildErr ": " e0 /\
     requests (Build accept w c src) = []) \/
  (exists s e0,
     result (buildRequestReaderWithAllFiles (TW := Tar.goTar accept) w src) = Returns s /\
     ImageBuild c s theOptions = Err e0 /\
     e = Errorf BuildDockerAPIErr ": " e0 /\
     requests (Build accept w c src) = [(s, theOptions)] /\
     stdout (Build accept w c src) = [] /\
     bodyClosed (Build accept w c src) = false) \/
  (exists s body,
     result (buildRequestReaderWithAllFiles (TW := Tar.goTar accept) w src) = Returns s /\
     ImageBuild c s theOptions = Ok body /\
     requests (Build accept w c src) = [(s, theOptions)] /\
     bodyClosed (Build accept w c src) = true /\
     ((shortLines (arriving body) 0 = false /\ e = Bufio.ErrTooLong) \/
      (shortLines (arriving body) 0 = true /\ ending body = Some e))).
Proof.
  destruct (result (buildRequestReaderWithAllFiles (TW := Tar.goTar accept) w src))
    as [s|e0|p0] eqn:Hres.
  - destruct (ImageBuild c s theOptions) as [body|e0] eqn:Hapi.
    + rewrite (Build_streaming accept w c src s body Hres Hapi).
      cbn [ended requests stdout bodyClosed]. intros He.
      right. right. exists s, body.
      split; [reflexivity|]. split; [exact Hapi|].
      split; [reflexivity|]. split; [reflexivity|].
      destruct (shortLines (arriving body) 0) eqn:Hshort.
      * rewrite (scanLines_short (arriving body) [] 0 eq_refl Hshort) in He.
        cbn [snd] in He. right. split; [reflexivity|].
        destruct (ending body) as [e1|]; [now injection He as -> | discriminate].
      * rewrite (scanLines_long (arriving body) [] 0 Hshort) in He.
        left. split; [reflexivity|]. now injection He as <-.
    + unfold Build. rewrite Hres. fold theOptions. rewrite Hapi.
      cbn [ended requests stdout bodyClosed]. intros [= <-].
      right. left. exists s, e0. repeat split. exact Hapi.
  - unfold Build. rewrite Hres. cbn [ended requests]. intros [= <-].
    left. exists e0. repeat split.
  - unfold Build. rewrite Hres. discriminate.
Qed.

Lemma Build_error_classification_witness :
  (exists e0,
     result (buildRequestReaderWithAllFiles
               (TW := Tar.goTar Sample.acceptAll) Sample.ctxWorld "/empty") = Fails e0 /\
     Errorf BuildDockerAPIErr ": " Fixture.refused = Errorf ImageBuildErr ": " e0 /\
     requests (Build Sample.acceptAll Sample.ctxWorld Fixture.downClient "/empty") = []) \/
  (exists s e0,
     result (buildRequestReaderWithAllFiles
               (TW := Tar.goTar Sample.acceptAll) Sample.ctxWorld "/empty") = Returns s /\
     ImageBuild Fixture.downClient s theOptions = Err e0 /\
     Errorf BuildDockerAPIErr ": " Fixture.refused = Errorf BuildDockerAPIErr ": " e0 /\
     requests (Build Sample.acceptAll Sample.ctxWorld Fixture.downClient "/empty")
       = [(s, theOptions)] /\
     stdout (Build Sample.acceptAll Sample.ctxWorld Fixture.downClient "/empty") = [] /\
     bodyClosed (Build Sample.acceptAll Sample.ctxWorld Fixture.downClient "/empty")
       = false) \/
  (exists s body,
     result (buildRequestReaderWithAllFiles
               (TW := Tar.goTar Sample.acceptAll) Sample.ctxWorld "/empty") = Returns s /\
     ImageBuild Fixture.downClient s theOptions = Ok body /\
     requests (Build Sample.acceptAll Sample.ctxWorld Fixture.downClient "/empty")
       = [(s, theOptions)] /\
     bodyClosed (Build Sample.acceptAll Sample.ctxWorld Fixture.downClient "/empty")
       = true /\
     ((shortLines (arriving body) 0 = false /\
       Errorf BuildDockerAPIErr ": " Fixture.refused = Bufio.ErrTooLong) \/
      (shortLines (arriving body) 0 = true /\
       ending body = Some (Errorf BuildDockerAPIErr ": " Fixture.refused)))).
Proof.
  apply (Build_error_classification
           Sample.acceptAll Sample.ctxWorld Fixture.downClient "/empty").
  reflexivity.
Defined.

(** Whatever the log, the lines [Build] prints are the first lines of the
    log, in order: none is altered, invented or printed out of order.  And
    when a line of the log fills the scanner's buffer, [Build] returns
    "token too long", whatever the way the stream ends. *)
Theorem printed_lines_are_first_lines_of_log
    (accept : Header -> bool) (w : World) (c : Client) (src : string)
    (s : Stream) (body : Body) :
  result (buildRequestReaderWithAllFiles (TW := Tar.goTar accept) w src) = Returns s ->
  ImageBuild c s theOptions = Ok body ->
  (exists rest, logLines (arriving body) [] = stdout (Build accept w c src) ++ rest) /\
  (shortLines (arriving body) 0 = false ->
   ended (Build accept w c src) = Fails Bufio.ErrTooLong) /\
  bodyClosed (Build accept w c src) = true.
Proof.
  intros Hs Hb. rewrite (Build_streaming accept w c src s body Hs Hb).
  cbn [stdout ended bodyClosed]. split; [|split; [|reflexivity]].
  - apply scanLines_prefix. reflexivity.
  - intros Hlong. now rewrite (scanLines_long (arriving body) [] 0 Hlong).
Qed.

Lemma printed_lines_are_first_lines_of_log_witness :
  (exists rest,
     logLines Fixture.mixedLog []
       = stdout (Build Sample.acceptAll Sample.ctxWorld Fixture.mixedClient "/empty")
         ++ rest) /\
  (shortLines Fixture.mixedLog 0 = false ->
   ended (Build Sample.acceptAll Sample.ctxWorld Fixture.mixedClient "/empty")
     = Fails Bufio.ErrTooLong) /\
  bodyClosed (Build Sample.acceptAll Sample.ctxWorld Fixture.mixedClient "/empty") = true.
Proof.
  apply (printed_lines_are_first_lines_of_log
           Sample.acceptAll Sample.ctxWorld Fixture.mixedClient "/empty" []
           {| arriving := Fixture.mixedLog; ending := Some Fixture.brokenPipe |});
    reflexivity.
Defined.

(** The command runs only with exactly one argument, and it never ends
    with an error value.  With a client, it ends as [Build] ends, except
    that an error of [Build] becomes a panic with the text of the error: so
    it ends normally exactly when [Build] returned nil; the requests are
    those of [Build], and the output is the version line of [NewClient]
    followed by what [Build] printed.  Without a client it panics with the
    text of [NewClient]'s error, having printed nothing, read no directory
    and made no request. *)
Theorem buildCmd_panics_on_every_error
    (accept : Header -> bool) (w : World) (dial : Result ApiClient)
    (args : list string) (r : BuildRun) :
  buildCmd accept w dial args = Some r ->
  exists src,
    args = [src] /\
    (forall e, ended r <> Fails e) /\
    (ended r = Returns tt <->
     exists a, dial = Ok a /\ ended (Build accept w (handle a) src) = Returns tt) /\
    (forall a, dial = Ok a ->
       ended r = match ended (Build accept w (handle a) src) with
                 | Fails e => Panics (Error e)
                 | o => o
                 end /\
       stdout r = list_byte_of_string ("Client API version: " ++ ClientVersion a)
                    :: stdout (Build accept w (handle a) src) /\
       requests r = requests (Build accept w (handle a) src) /\
       archive r = archive (Build accept w (handle a) src)) /\
    (forall cause, dial = Err cause ->
       ended r = Panics ("failed to create Docker client: " ++ Error cause)%string /\
       stdout r = [] /\ requests r = [] /\ archive r = None).
Proof.
  unfold buildCmd, NewClient. destruct args as [|src [|a0 args]]; try discriminate.
  intros H. exists src. split; [reflexivity|].
  destruct dial as [a|cause]; injection H as <-; cbn [ended stdout requests archive map app].
  - split; [|split; [|split]].
    + intros e. destruct (ended (Build accept w (handle a) src)) as [[]|e1|p1]; discriminate.
    + split.
      * intros Hend. exists a. split; [reflexivity|].
        destruct (ended (Build accept w (handle a) src)) as [[]|e1|p1];
          [reflexivity | discriminate | discriminate].
      * intros (a' & [= <-] & Hend). now rewrite Hend.
    + intros a' [= <-]. repeat split.
    + discriminate.
  - split; [discriminate|]. split; [|split].
    + split; [discriminate|]. intros (a' & Ha & _). discriminate.
    + discriminate.
    + intros cause' [= <-]. repeat split.
Qed.

Lemma buildCmd_panics_on_every_error_witness :
  exists r,
    buildCmd Sample.acceptAll Sample.emptyWorld (Ok Sample.stubApi) ["nope"] = Some r /\
    exists src,
      ["nope"] = [src] /\
      (forall e, ended r <> Fails e) /\
      (ended r = Returns tt <->
       exists a, Ok Sample.stubApi = Ok a /\
                 ended (Build Sample.acceptAll Sample.emptyWorld (handle a) src)
                 = Returns tt) /\
      (forall a, Ok Sample.stubApi = Ok a ->
         ended r = match ended (Build Sample.acceptAll Sample.emptyWorld (handle a) src) with
                   | Fails e => Panics (Error e)
                   | o => o
                   end /\
         stdout r = list_byte_of_string ("Client API version: " ++ ClientVersion a)
                      :: stdout (Build Sample.acceptAll Sample.emptyWorld (handle a) src) /\
         requests r = requests (Build Sample.acceptAll Sample.emptyWorld (handle a) src) /\
         archive r = archive (Build Sample.acceptAll Sample.emptyWorld (handle a) src)) /\
      (forall cause, Ok Sample.stubApi = Err cause ->
         ended r = Panics ("failed to create Docker client: " ++ Error cause)%string /\
         stdout r = [] /\ requests r = [] /\ archive r = None).
Proof.
  eexists. split; [reflexivity|].
  apply (buildCmd_panics_on_every_error
           Sample.acceptAll Sample.emptyWorld (Ok Sample.stubApi) ["nope"]).
  reflexivity.
Defined.

(** [NewProfiler] fails only when the Docker SDK gives no client; its
    error is then the one [NewClient] makes, of the [ClientBuildErr] kind
    and with every kind of the cause, and nothing has been printed. *)
Theorem NewProfiler_fails_with_client_error (dial : Result ApiClient) (e : error) :
  fst (NewProfiler dial) = Err e ->
  exists cause,
    dial = Err cause /\
    e = Errorf ClientBuildErr ": " cause /\
    fst (NewClient dial) = Err e /\
    errors_Is e ClientBuildErr = true /\
    (forall k, errors_Is cause k = true -> errors_Is e k = true) /\
    Error e = ("failed to create Docker client: " ++ Error cause)%string /\
    snd (NewProfiler dial) = [].
Proof.
  unfold NewProfiler, NewClient. destruct dial as [a|cause]; cbn [fst snd].
  - discriminate.
  - intros [= <-]. exists cause. repeat split.
    intros k. apply errors_Is_wrapped.
Qed.

Lemma NewProfiler_fails_with_client_error_witness :
  exists cause,
    @Err ApiClient Fixture.refused = Err cause /\
    Errorf ClientBuildErr ": " Fixture.refused = Errorf ClientBuildErr ": " cause /\
    fst (NewClient (Err Fixture.refused))
      = Err (Errorf ClientBuildErr ": " Fixture.refused) /\
    errors_Is (Errorf ClientBuildErr ": " Fixture.refused) ClientBuildErr = true /\
    (forall k, errors_Is cause k = true ->
               errors_Is (Errorf ClientBuildErr ": " Fixture.refused) k = true) /\
    Error (Errorf ClientBuildErr ": " Fixture.refused)
      = ("failed to create Docker client: " ++ Error cause)%string /\
    snd (NewProfiler (Err Fixture.refused)) = [].
Proof.
  apply (NewProfiler_fails_with_client_error (Err Fixture.refused)
           (Errorf ClientBuildErr ": " Fixture.refused)).
  reflexivity.
Defined.

(** A directory whose entries are all files that can be read, looked up
    and encoded is archived without error, one entry per file. *)
Lemma builder_archives_files
    (accept : Header -> bool) (w : World) (src srcAbs : string)
    (dir : list DirEntry) :
  resolve w src = Some srcAbs ->
  ReadDir w srcAbs = Ok dir ->
  Forall (fun d0 =>
            IsDir d0 = false /\
            exists b i, fileOf w src d0 = Some (b, i) /\
                        accept (headerOf d0 b i) = true) dir ->
  exists s es,
    result (buildRequestReaderWithAllFiles (TW := Tar.goTar accept) w src) = Returns s /\
    Tar.readArchive s = Ok es /\
    Forall2 (archived w src) dir es.
Proof.
  intros Hres Hdir Hgood.
  assert (Hfiles : Forall (fun d0 => IsDir d0 = false) dir).
  { eapply Forall_impl; [|exact Hgood]. now intros d0 [Hd _]. }
  destruct (rangeDir_succeeds accept w src dir
              (afterListing (TW := Tar.goTar accept) src srcAbs)
              (idle_NewWriter accept src srcAbs) Hgood) as [s1 Hloop].
  destruct (rangeDir_returns accept w _ _ _ _ (idle_NewWriter accept src srcAbs) Hloop)
    as [[Hnb Herr] _].
  assert (Hs : result (buildRequestReaderWithAllFiles (TW := Tar.goTar accept) w src)
               = Returns (flushed (tw s1))).
  { rewrite (builder_listed w _ _ _ Hres Hdir), Hloop.
    cbn [tw_Flush Tar.goTar]. unfold Tar.Flush. rewrite Herr, Hnb. reflexivity. }
  destruct (builder_returns accept w src srcAbs dir _ Hres Hdir Hs)
    as (es & t & Hes & Henc & _ & _).
  rewrite (filesOf_all_files dir Hfiles) in Hes.
  exists (flushed (tw s1)), es. split; [assumption|]. split; [|assumption].
  rewrite Henc. apply readArchive_encode. eapply archived_sized; eassumption.
Qed.



(** A directory whose entries are all files that can be read, looked up
    and encoded is archived with exactly one entry per file, in the order
    of the listing: each entry has the name of the file, its content, the
    length of the content as size, and as mode the [fs.FileMode] of the
    file info as a number, which is the permission bits of the file when
    the file mode has no other bit set. *)
Theorem files_archived_with_file_mode
    (accept : Header -> bool) (w : World) (src srcAbs : string)
    (dir : list DirEntry) :
  resolve w src = Some srcAbs ->
  ReadDir w srcAbs = Ok dir ->
  Forall (fun d0 =>
            IsDir d0 = false /\
            exists b i, fileOf w src d0 = Some (b, i) /\
                        accept (headerOf d0 b i) = true) dir ->
  exists s es,
    result (buildRequestReaderWithAllFiles (TW := Tar.goTar accept) w src) = Returns s /\
    Tar.readArchive s = Ok es /\
    Forall2 (fun d0 e =>
               archived w src d0 e /\
               forall i, Info d0 = Ok i ->
                 hMode (fst e) = Mode i /\
                 (Mode i = Perm (Mode i) -> hMode (fst e) = Perm (Mode i)))
            dir es.
Proof.
  intros Hres Hdir Hgood.
  destruct (builder_archives_files accept w src srcAbs dir Hres Hdir Hgood)
    as (s & es & Hs & Hread & Hes).
  exists s, es. split; [assumption|]. split; [assumption|].
  eapply Forall2_impl; [|exact Hes].
  intros d0 e Ha. split; [assumption|].
  intros i Hi. destruct (archived_mode w src d0 e i Ha Hi) as (Hm & _ & Hp). auto.
Qed.

Lemma files_archived_with_file_mode_witness :
  exists s es,
    result (buildRequestReaderWithAllFiles
              (TW := Tar.goTar Sample.acceptAll) Sample.ctxWorld "/flat") = Returns s /\
    Tar.readArchive s = Ok es /\
    Forall2 (fun d0 e =>
               archived Sample.ctxWorld "/flat" d0 e /\
               forall i, Info d0 = Ok i ->
                 hMode (fst e) = Mode i /\
                 (Mode i = Perm (Mode i) -> hMode (fst e) = Perm (Mode i)))
            [Sample.a_txt; Sample.b_txt] es.
Proof.
  apply (files_archived_with_file_mode
           Sample.acceptAll Sample.ctxWorld "/flat" "/flat"
           [Sample.a_txt; Sample.b_txt]).
  - reflexivity.
  - reflexivity.
  - constructor; [|constructor; [|constructor]].
    + split; [reflexivity|].
      exists Sample.hello, {| Mode := 420 |}. split; reflexivity.
    + split; [reflexivity|].
      exists [], {| Mode := 384 |}. split; reflexivity.
Defined.
